(** * Retention clean-up jobs: blob storage and SQL database

    A shallow embedding of the two timer-triggered functions

      - [CleanUpFunctions/BlobCleanupFunction/__init__.py]
      - [CleanUpFunctions/DatabaseCleanupFunction/__init__.py]

    Each [main] is a sequential script over external collaborators (the
    process environment, the storage SDK, the ODBC driver, the identity
    provider, the wall clock).  A collaborator is a field of a [World]
    record giving the answer of each call; the script is a computation
    that threads the Python locals it mutates, collects the trace of the
    calls and log lines it issues, and returns or raises. *)

From Stdlib Require Import String Ascii List ZArith Lia Bool Sorted.
Import ListNotations.
Local Open Scope string_scope.

(* ===================================================================== *)
(** ** The fragment of Python the two scripts rely on *)
(* ===================================================================== *)

Module Py.

(** Exception classes that the scripts raise, catch or let through.  All of
    them derive from [Exception]. *)
Inductive exn : Type :=
| ValueError
| IndexError
| NameError
| ResourceNotFoundError
| PyodbcError
| OtherException.

(** [logging.info], [logging.warning], [logging.error]. *)
Inductive level : Type := INFO | WARNING | ERROR.

(** Characters are the code points below 256.  [str.isspace] on them. *)
Definition isspace (c : ascii) : bool :=
  let n := nat_of_ascii c in
  (((9 <=? n) && (n <=? 13)) || ((28 <=? n) && (n <=? 32))
   || (n =? 133) || (n =? 160))%nat.

Definition isdigit (c : ascii) : bool :=
  let n := nat_of_ascii c in ((48 <=? n) && (n <=? 57))%nat.

Definition digit_value (c : ascii) : Z := Z.of_nat (nat_of_ascii c) - 48.

Fixpoint rev_onto (s acc : string) : string :=
  match s with
  | EmptyString => acc
  | String c s' => rev_onto s' (String c acc)
  end.

Definition rev (s : string) : string := rev_onto s EmptyString.

(** [s.lstrip()], [s.rstrip()], [s.strip()] with no argument. *)
Fixpoint lstrip (s : string) : string :=
  match s with
  | EmptyString => EmptyString
  | String c s' => if isspace c then lstrip s' else s
  end.

Definition rstrip (s : string) : string := rev (lstrip (rev s)).

Definition strip (s : string) : string := rstrip (lstrip s).

(** [s.split(sep)] for a non-empty [sep]: the pieces between the
    non-overlapping occurrences of [sep], found left to right.  [skip] counts
    the characters of a matched separator still to be passed over, [cur] is
    the current piece, reversed. *)
Fixpoint split_go (sep : string) (skip : nat) (cur : string) (s : string)
  : list string :=
  match s with
  | EmptyString => [rev cur]
  | String c s' =>
      match skip with
      | S k => split_go sep k cur s'
      | O =>
          if prefix sep s
          then rev cur :: split_go sep (String.length sep - 1) EmptyString s'
          else split_go sep 0 (String c cur) s'
      end
  end.

(** [str.split] raises [ValueError] on an empty separator. *)
Definition split (sep s : string) : exn + list string :=
  match sep with
  | EmptyString => inl ValueError
  | _ => inr (split_go sep 0 EmptyString s)
  end.

(** [l[i]] for a non-negative index. *)
Definition index {A : Type} (l : list A) (i : nat) : exn + A :=
  match nth_error l i with
  | Some x => inr x
  | None => inl IndexError
  end.

(** [s.replace(old, new)] for a non-empty [old]. *)
Fixpoint replace_go (old new : string) (skip : nat) (s : string) : string :=
  match s with
  | EmptyString => EmptyString
  | String c s' =>
      match skip with
      | S k => replace_go old new k s'
      | O =>
          if prefix old s
          then new ++ replace_go old new (String.length old - 1) s'
          else String c (replace_go old new 0 s')
      end
  end.

(** With an empty [old], Python puts [new] before every character and at
    the end. *)
Fixpoint intersperse (new s : string) : string :=
  match s with
  | EmptyString => new
  | String c s' => new ++ String c (intersperse new s')
  end.

Definition replace (old new s : string) : string :=
  match old with
  | EmptyString => intersperse new s
  | _ => replace_go old new 0 s
  end.

(** The whitespace [int] passes over at both ends: that of C's [isspace],
    and the two non-ASCII spaces below 256, which CPython turns into blanks
    before it parses.  The separators 28 to 31 are not among them. *)
Definition int_space (c : ascii) : bool :=
  let n := nat_of_ascii c in
  (((9 <=? n) && (n <=? 13)) || (n =? 32) || (n =? 133) || (n =? 160))%nat.

Fixpoint int_lstrip (s : string) : string :=
  match s with
  | EmptyString => EmptyString
  | String c s' => if int_space c then int_lstrip s' else s
  end.

Definition int_strip (s : string) : string :=
  rev (int_lstrip (rev (int_lstrip s))).

(** The digits of a text in base 10, with single underscores allowed
    between digits. *)
Fixpoint digits (s : string) (acc : Z) (prev_digit : bool) : option Z :=
  match s with
  | EmptyString => if prev_digit then Some acc else None
  | String c s' =>
      if isdigit c then digits s' (10 * acc + digit_value c) true
      else if (Ascii.eqb c "_"%char) && prev_digit then
        match s' with
        | EmptyString => None
        | String d _ => if isdigit d then digits s' acc false else None
        end
      else None
  end.

Fixpoint count_digits (s : string) : Z :=
  match s with
  | EmptyString => 0
  | String c s' => (if isdigit c then 1 else 0) + count_digits s'
  end.

(** [sys.int_info.default_max_str_digits]: a text with more digits is
    refused. *)
Definition max_str_digits : Z := 4300.

Definition int_value (s : string) : option Z :=
  let body := int_strip s in
  if (max_str_digits <? count_digits body)%Z then None
  else
    match body with
    | String "-"%char r => option_map Z.opp (digits r 0 false)
    | String "+"%char r => digits r 0 false
    | _ => digits body 0 false
    end.

(** [int(s)] in base 10: surrounding whitespace is dropped, one sign is
    allowed, then digits; anything else raises [ValueError]. *)
Definition int (s : string) : exn + Z :=
  match int_value s with
  | Some z => inr z
  | None => inl ValueError
  end.

(** Truthiness of [os.environ.get(name)]: [None] and [''] are falsy. *)
Definition truthy (v : option string) : bool :=
  match v with
  | None => false
  | Some EmptyString => false
  | Some _ => true
  end.

(** [os.environ.get(name, default)]. *)
Definition get_default (v : option string) (default : string) : string :=
  match v with
  | Some s => s
  | None => default
  end.

(** Sequencing of expressions that may raise. *)
Definition and_then {A B : Type} (v : exn + A) (f : A -> exn + B) : exn + B :=
  match v with
  | inl e => inl e
  | inr a => f a
  end.

End Py.

(* ===================================================================== *)
(** ** Sequential scripts with locals, exceptions and a trace *)
(* ===================================================================== *)

(** A statement runs from the current locals [S]; it leaves new locals,
    the events it issued (log lines and collaborator calls, of type [E]),
    and either a value or the exception it raised.  Locals assigned before
    an exception is raised stay assigned, as in Python. *)
Module Script.

Record result (S E A : Type) : Type := Result {
  locals : S;
  events : list E;
  value : Py.exn + A
}.
Arguments Result {S E A}.
Arguments locals {S E A}.
Arguments events {S E A}.
Arguments value {S E A}.

Definition M (S E A : Type) : Type := S -> result S E A.

Section Ops.
Context {S E : Type}.

Definition ret {A} (a : A) : M S E A := fun s => Result s [] (inr a).

Definition raise {A} (e : Py.exn) : M S E A := fun s => Result s [] (inl e).

Definition bind {A B} (m : M S E A) (f : A -> M S E B) : M S E B :=
  fun s =>
    match m s with
    | Result s1 ev1 (inl e) => Result s1 ev1 (inl e)
    | Result s1 ev1 (inr a) =>
        match f a s1 with
        | Result s2 ev2 v => Result s2 (ev1 ++ ev2) v
        end
    end.

(** [try: m  except Exception as e: h e]. *)
Definition try_except {A} (m : M S E A) (h : Py.exn -> M S E A) : M S E A :=
  fun s =>
    match m s with
    | Result s1 ev1 (inl e) =>
        match h e s1 with
        | Result s2 ev2 v => Result s2 (ev1 ++ ev2) v
        end
    | Result s1 ev1 (inr a) => Result s1 ev1 (inr a)
    end.

Definition emit (ev : E) : M S E unit := fun s => Result s [ev] (inr tt).

Definition get : M S E S := fun s => Result s [] (inr s).

Definition modify (f : S -> S) : M S E unit := fun s => Result (f s) [] (inr tt).

(** A pure Python expression that may raise. *)
Definition eval {A} (v : Py.exn + A) : M S E A := fun s => Result s [] v.

(** A collaborator call: the event is issued, then the collaborator's
    answer is returned or raised. *)
Definition call {A} (ev : E) (answer : Py.exn + A) : M S E A :=
  fun s => Result s [ev] answer.

(** [for x in l: body x]. *)
Fixpoint for_each {A} (l : list A) (body : A -> M S E unit) : M S E unit :=
  match l with
  | [] => ret tt
  | x :: l' => bind (body x) (fun _ => for_each l' body)
  end.

End Ops.

Module Notations.
Declare Scope script_scope.
Delimit Scope script_scope with script.
Notation "x <- m ;; k" := (bind m (fun x => k))
  (at level 61, m at next level, right associativity) : script_scope.
Notation "m ;; k" := (bind m (fun _ => k))
  (at level 61, right associativity) : script_scope.
End Notations.

End Script.

(* ===================================================================== *)
(** ** BlobCleanupFunction/__init__.py *)
(* ===================================================================== *)

Module BlobCleanup.
Import Script Script.Notations.
Local Open Scope script_scope.

(** What [list_blobs] yields for a blob: its name, its access tier ([None]
    when the service reports none) and its last-modified instant, an aware
    UTC datetime, here in microseconds since the epoch. *)
Record Blob : Type := {
  name : string;
  blob_tier : option string;
  last_modified : Z
}.

(** The collaborators of one invocation. *)
Record World : Type := {
  past_due : bool;
  STORAGE_ACCOUNT_NAME : option string;
  RETENTION_DAYS : option string;
  get_account_information : Py.exn + string;
  list_containers : Py.exn + list string;
  list_blobs : string -> Py.exn + list Blob;
  delete_blob : string -> string -> Py.exn + unit;
  (** [now k] is what the [k]-th call of [datetime.now(timezone.utc)]
      returns, in microseconds since the epoch. *)
  now : nat -> Z
}.

Record Counters : Type := {
  deleted_count : nat;
  processed_count : nat;
  error_count : nat
}.

(** The locals the loops mutate.  [clock_reads] counts the calls of
    [datetime.now] so far; [history] keeps every value the three counters
    have had, most recent first. *)
Record Locals : Type := {
  counters : Counters;
  clock_reads : nat;
  history : list Counters
}.

Inductive message : Type :=
| Triggered
| PastDue
| Configuration (account : string) (retention_days : Z)
| AcquiringToken
| Connecting (account_url : string)
| Connected (sku : string)
| AccessFailed (e : Py.exn)
| ListingContainers
| FoundContainers (n : nat)
| ListContainersFailed (e : Py.exn)
| ProcessingContainer (container : string)
| FoundBlobs (n : nat) (container : string)
| ProcessingBlob (blob : string)
| BlobTier (tier : option string)
| LastModified (t : Z)
| BlobAge (age_days : Z)
| Deleted (container blob : string)
| BlobNotFound (container blob : string)
| DeleteFailed (container blob : string) (e : Py.exn)
| Skipping (blob : string) (tier : option string) (age_days : Z)
| ContainerFailed (container : string) (e : Py.exn)
| SummaryHeader
| SummaryContainers (n : nat)
| SummaryProcessed (n : nat)
| SummaryDeleted (n : nat)
| SummaryErrors (n : nat)
| ConfigurationError (e : Py.exn)
| FunctionError (e : Py.exn)
| ErrorType (e : Py.exn).

Inductive event : Type :=
| Log (l : Py.level) (m : message)
| DefaultAzureCredential
| BlobServiceClient (account_url : string)
| GetAccountInformation
| ListContainers
| GetContainerClient (container : string)
| ListBlobs (container : string)
| DatetimeNow
| DeleteBlob (container blob : string).

Definition is_log (ev : event) : bool :=
  match ev with Log _ _ => true | _ => false end.

Definition is_delete (ev : event) : bool :=
  match ev with DeleteBlob _ _ => true | _ => false end.

Definition Stmt (A : Type) : Type := M Locals event A.

Definition log (l : Py.level) (m : message) : Stmt unit := emit (Log l m).

Definition zero : Counters :=
  {| deleted_count := 0; processed_count := 0; error_count := 0 |}.

Definition initial : Locals :=
  {| counters := zero; clock_reads := 0; history := [] |}.

(** Every assignment to a counter goes through [assign]. *)
Definition assign (c : Counters) : Stmt unit :=
  modify (fun s => {| counters := c;
                      clock_reads := clock_reads s;
                      history := c :: history s |}).

Definition incr_deleted : Stmt unit :=
  s <- get ;;
  let c := counters s in
  assign {| deleted_count := S (deleted_count c);
            processed_count := processed_count c;
            error_count := error_count c |}.

Definition incr_processed : Stmt unit :=
  s <- get ;;
  let c := counters s in
  assign {| deleted_count := deleted_count c;
            processed_count := S (processed_count c);
            error_count := error_count c |}.

Definition incr_error : Stmt unit :=
  s <- get ;;
  let c := counters s in
  assign {| deleted_count := deleted_count c;
            processed_count := processed_count c;
            error_count := S (error_count c) |}.

(** [datetime.now(timezone.utc)]. *)
Definition datetime_now (w : World) : Stmt Z :=
  s <- get ;;
  modify (fun s => {| counters := counters s;
                      clock_reads := S (clock_reads s);
                      history := history s |}) ;;
  call DatetimeNow (inr (now w (clock_reads s))).

Definition microseconds_per_day : Z := 86400000000.

(** [(t1 - t0).days]: a [timedelta] is normalised with its seconds and
    microseconds non-negative, so [.days] is the floor. *)
Definition days_between (t1 t0 : Z) : Z := (t1 - t0) / microseconds_per_day.

Definition is_archive (tier : option string) : bool :=
  match tier with
  | Some t => String.eqb t "Archive"
  | None => false
  end.

(** Line 79: [blob.blob_tier == 'Archive' and age_days > retention_days]. *)
Definition should_delete (retention_days : Z) (blob : Blob) (age_days : Z) : bool :=
  is_archive (blob_tier blob) && (age_days >? retention_days)%Z.

(** Lines 67-91, the body of [for blob in blobs]. *)
Definition process_blob (w : World) (retention_days : Z) (container : string)
    (blob : Blob) : Stmt unit :=
  incr_processed ;;
  log Py.INFO (ProcessingBlob (name blob)) ;;
  log Py.INFO (BlobTier (blob_tier blob)) ;;
  log Py.INFO (LastModified (last_modified blob)) ;;
  t <- datetime_now w ;;
  let age_days := days_between t (last_modified blob) in
  log Py.INFO (BlobAge age_days) ;;
  if should_delete retention_days blob age_days then
    try_except
      (call (DeleteBlob container (name blob))
            (delete_blob w container (name blob)) ;;
       incr_deleted ;;
       log Py.INFO (Deleted container (name blob)))
      (fun e =>
         match e with
         | Py.ResourceNotFoundError =>
             log Py.WARNING (BlobNotFound container (name blob)) ;;
             incr_error
         | _ =>
             log Py.ERROR (DeleteFailed container (name blob) e) ;;
             incr_error
         end)
  else
    log Py.INFO (Skipping (name blob) (blob_tier blob) age_days).

(** Lines 58-96, the body of [for container in containers]. *)
Definition process_container (w : World) (retention_days : Z)
    (container : string) : Stmt unit :=
  log Py.INFO (ProcessingContainer container) ;;
  emit (GetContainerClient container) ;;
  try_except
    (blobs <- call (ListBlobs container) (list_blobs w container) ;;
     log Py.INFO (FoundBlobs (List.length blobs) container) ;;
     for_each blobs (process_blob w retention_days container))
    (fun e =>
       log Py.ERROR (ContainerFailed container e) ;;
       incr_error).

(** Lines 98-103. *)
Definition log_summary (containers : list string) : Stmt unit :=
  s <- get ;;
  log Py.INFO SummaryHeader ;;
  log Py.INFO (SummaryContainers (List.length containers)) ;;
  log Py.INFO (SummaryProcessed (processed_count (counters s))) ;;
  log Py.INFO (SummaryDeleted (deleted_count (counters s))) ;;
  log Py.INFO (SummaryErrors (error_count (counters s))).

(** Lines 17-103, the body of the outer [try]. *)
Definition cleanup (w : World) : Stmt unit :=
  let account_name := STORAGE_ACCOUNT_NAME w in
  retention_days <- eval (Py.int (Py.get_default (RETENTION_DAYS w) "90")) ;;
  (if negb (Py.truthy account_name)
   then raise Py.ValueError else ret tt) ;;
  let account := Py.get_default account_name "" in
  log Py.INFO (Configuration account retention_days) ;;
  log Py.INFO AcquiringToken ;;
  emit DefaultAzureCredential ;;
  let account_url := "https://" ++ account ++ ".blob.core.windows.net" in
  log Py.INFO (Connecting account_url) ;;
  emit (BlobServiceClient account_url) ;;
  try_except
    (sku <- call GetAccountInformation (get_account_information w) ;;
     log Py.INFO (Connected sku))
    (fun e => log Py.ERROR (AccessFailed e) ;; raise e) ;;
  containers <-
    try_except
      (log Py.INFO ListingContainers ;;
       cs <- call ListContainers (list_containers w) ;;
       log Py.INFO (FoundContainers (List.length cs)) ;;
       ret cs)
      (fun e => log Py.ERROR (ListContainersFailed e) ;; raise e) ;;
  assign zero ;;
  for_each containers (process_container w retention_days) ;;
  log_summary containers.

(** Lines 9-111. *)
Definition main (w : World) : Stmt unit :=
  log Py.INFO Triggered ;;
  (if past_due w then log Py.INFO PastDue else ret tt) ;;
  try_except (cleanup w)
    (fun e =>
       match e with
       | Py.ValueError => log Py.ERROR (ConfigurationError e) ;; raise e
       | _ =>
           log Py.ERROR (FunctionError e) ;;
           log Py.ERROR (ErrorType e) ;;
           raise e
       end).

(** One invocation of the function. *)
Definition run (w : World) : result Locals event unit := main w initial.

(** The blobs the loops go through, in order, each with its container and
    the clock reading taken for it; [k] is the number of clock readings
    taken before. *)
Fixpoint stamp (w : World) (k : nat) (container : string) (blobs : list Blob)
  : list (string * Blob * Z) :=
  match blobs with
  | [] => []
  | b :: bs => (container, b, now w k) :: stamp w (S k) container bs
  end.

Fixpoint enumerated (w : World) (k : nat) (containers : list string)
  : list (string * Blob * Z) :=
  match containers with
  | [] => []
  | c :: cs =>
      match list_blobs w c with
      | inl _ => enumerated w k cs
      | inr blobs => stamp w k c blobs ++ enumerated w (k + List.length blobs) cs
      end
  end.

(** The claim's predicate, on an enumerated blob. *)
Definition eligible (retention_days : Z) (x : string * Blob * Z) : bool :=
  let '(_, b, t) := x in
  should_delete retention_days b (days_between t (last_modified b)).

Definition delete_of (x : string * Blob * Z) : event :=
  let '(c, b, _) := x in DeleteBlob c (name b).

Definition skip_of (x : string * Blob * Z) : event :=
  let '(_, b, t) := x in
  Log Py.INFO (Skipping (name b) (blob_tier b) (days_between t (last_modified b))).

Definition is_skip (ev : event) : bool :=
  match ev with Log _ (Skipping _ _ _) => true | _ => false end.

(** What lines 17-50 come to: the retention window and the containers to
    go through, or the exception that ends the invocation. *)
Definition preamble (w : World) : Py.exn + (Z * list string) :=
  Py.and_then (Py.int (Py.get_default (RETENTION_DAYS w) "90"))
    (fun retention_days =>
  if negb (Py.truthy (STORAGE_ACCOUNT_NAME w)) then inl Py.ValueError else
  Py.and_then (get_account_information w) (fun _ =>
  Py.and_then (list_containers w) (fun containers =>
  inr (retention_days, containers)))).

(** The locals on entering the container loop (lines 52-54). *)
Definition at_loop_entry : Locals :=
  {| counters := zero; clock_reads := 0; history := [zero] |}.

(** One counter went up by one, the other two are unchanged. *)
Definition one_increment (a b : Counters) : Prop :=
  (deleted_count b = S (deleted_count a) /\ processed_count b = processed_count a
   /\ error_count b = error_count a)
  \/ (deleted_count b = deleted_count a /\ processed_count b = S (processed_count a)
      /\ error_count b = error_count a)
  \/ (deleted_count b = deleted_count a /\ processed_count b = processed_count a
      /\ error_count b = S (error_count a)).

(** [steps h]: in a history (most recent first) each value follows from the
    one before it by one increment. *)
Fixpoint steps (h : list Counters) : Prop :=
  match h with
  | b :: ((a :: _) as t) => one_increment a b /\ steps t
  | _ => True
  end.

Definition le_counters (a b : Counters) : Prop :=
  deleted_count a <= deleted_count b
  /\ processed_count a <= processed_count b
  /\ error_count a <= error_count b.

Definition deleted_within_processed (c : Counters) : Prop :=
  deleted_count c <= processed_count c.

(** The recorded history ends in the current counters, began at zero,
    moved by single increments, and never had more deletions than blobs
    processed. *)
Definition consistent (s : Locals) : Prop :=
  hd_error (history s) = Some (counters s)
  /\ last (history s) zero = zero
  /\ steps (history s)
  /\ Forall deleted_within_processed (history s).

(** A storage account to run the job on: container [archive1] holds an
    Archive blob 100 days old and a Hot blob 200 days old; [broken] cannot
    be listed; in [archive2] one expired Archive blob has been removed by
    someone else since the listing, and one Archive blob is an hour old. *)
Module Demo.

Definition today : Z := (20000 * microseconds_per_day)%Z.

Definition days_ago (n : Z) : Z := (today - n * microseconds_per_day)%Z.

Definition x_txt : Blob :=
  {| name := "x.txt"; blob_tier := Some "Archive"; last_modified := days_ago 100 |}.

Definition y_txt : Blob :=
  {| name := "y.txt"; blob_tier := Some "Hot"; last_modified := days_ago 200 |}.

Definition gone_txt : Blob :=
  {| name := "gone.txt"; blob_tier := Some "Archive"; last_modified := days_ago 365 |}.

Definition fresh_txt : Blob :=
  {| name := "fresh.txt"; blob_tier := Some "Archive";
     last_modified := (today - 3600000000)%Z |}.

Definition world : World :=
  {| past_due := false;
     STORAGE_ACCOUNT_NAME := Some "acct";
     RETENTION_DAYS := Some "90";
     get_account_information := inr "Standard_LRS";
     list_containers := inr ["archive1"; "broken"; "archive2"];
     list_blobs := fun c =>
       if String.eqb c "archive1" then inr [x_txt; y_txt]
       else if String.eqb c "archive2" then inr [gone_txt; fresh_txt]
       else inl Py.OtherException;
     delete_blob := fun _ n =>
       if String.eqb n "gone.txt" then inl Py.ResourceNotFoundError
       else inr tt;
     now := fun k => (today + Z.of_nat k)%Z |}.

Definition unconfigured : World :=
  {| past_due := true;
     STORAGE_ACCOUNT_NAME := None;
     RETENTION_DAYS := None;
     get_account_information := inr "Standard_LRS";
     list_containers := inr ["archive1"];
     list_blobs := fun _ => inr [x_txt];
     delete_blob := fun _ _ => inr tt;
     now := fun _ => today |}.

End Demo.

End BlobCleanup.

(* ===================================================================== *)
(** ** DatabaseCleanupFunction/__init__.py *)
(* ===================================================================== *)

Module DatabaseCleanup.
Import Script Script.Notations.
Local Open Scope script_scope.

(** The rows of each table, a row being the value of its timestamp
    column. *)
Definition Store : Type := list (string * list Z).

(** A connection with autocommit off: statements act on [pending], which
    [commit] makes durable and [rollback] discards. *)
Record Database : Type := {
  committed : Store;
  pending : Store
}.

Inductive sqlvalue : Type :=
| VInt (z : Z)
| VStr (s : string).

(** What the cursor holds after a statement: [fetchone()[0]] and
    [rowcount]. *)
Record Answer : Type := {
  fetchone0 : sqlvalue;
  rowcount : Z
}.

(** How the driver is asked to end a transaction ([SQLEndTran]). *)
Inductive completion : Type := SQL_COMMIT | SQL_ROLLBACK.

(** The collaborators of one invocation.  [execute sql param store] is the
    server running one statement against the open transaction: it returns
    the store the transaction then sees, and the cursor's answer or the
    error raised.  [end_transaction how d] is the driver ending the
    transaction of a connection in state [d]: [None] when it completes,
    [Some (e, d')] when it raises [e] and leaves the connection in [d']. *)
Record World : Type := {
  SQL_SERVER : option string;
  SQL_DATABASE : option string;
  RETENTION_DAYS : option string;
  drivers : list string;
  get_token : string -> Py.exn + string;
  connect : string -> option (Z * string) -> Py.exn + unit;
  server_store : Store;
  execute : string -> option Z -> Store -> Store * (Py.exn + Answer);
  end_transaction : completion -> Database -> option (Py.exn * Database)
}.

(** The locals the script mutates, with the state of the connection. *)
Record Locals : Type := {
  db : Database;
  total_deleted : Z;
  table_name : option string
}.

Inductive message : Type :=
| Triggered
| ServerConfigured (yes : bool)
| DatabaseConfigured (yes : bool)
| RetentionConfigured (retention_days : string)
| AvailableDrivers
| DriverList (l : list string)
| TokenAcquired
| AttemptingConnect
| MaskedConnectionString (server database : string)
| AttemptingMSI
| ConnectedMSI
| MSIFailed (e : Py.exn)
| AttemptingToken
| ConnectedToken
| TokenFailed (e : Py.exn)
| ServerVersion (v : sqlvalue)
| TestFailed (e : Py.exn)
| TableMissing (table : string)
| FoundRecords (n : sqlvalue) (table : string)
| DeletedRows (n : Z) (table : string)
| QueryFailed (table : string) (e : Py.exn)
| Completed (total : Z)
| ConfigurationError (e : Py.exn)
| FunctionError (e : Py.exn)
| ErrorType (e : Py.exn)
| ErrorArgs (e : Py.exn).

Inductive event : Type :=
| Log (l : Py.level) (m : message)
| Drivers
| DefaultAzureCredential
| GetToken (scope : string)
| Connect (conn_str : string) (attrs_before : option (Z * string))
| OpenCursor
| Execute (sql : string) (param : option Z) (answer : Py.exn + Answer)
| Commit
| Rollback
| CursorExit (raised : bool)
| ConnectionExit (raised : bool).

Definition is_log (ev : event) : bool :=
  match ev with Log _ _ => true | _ => false end.

Definition Stmt (A : Type) : Type := M Locals event A.

Definition log (l : Py.level) (m : message) : Stmt unit := emit (Log l m).

Definition open_database (s : Store) : Database :=
  {| committed := s; pending := s |}.

Definition initial (w : World) : Locals :=
  {| db := open_database (server_store w);
     total_deleted := 0;
     table_name := None |}.

Definition set_db (d : Database) : Stmt unit :=
  modify (fun s => {| db := d;
                      total_deleted := total_deleted s;
                      table_name := table_name s |}).

Definition set_table_name (t : string) : Stmt unit :=
  modify (fun s => {| db := db s;
                      total_deleted := total_deleted s;
                      table_name := Some t |}).

Definition add_total_deleted (n : Z) : Stmt unit :=
  modify (fun s => {| db := db s;
                      total_deleted := (total_deleted s + n)%Z;
                      table_name := table_name s |}).

(** [cursor.execute(sql)] and [cursor.execute(sql, param)]. *)
Definition cursor_execute (w : World) (sql : string) (param : option Z)
  : Stmt Answer :=
  s <- get ;;
  let r := execute w sql param (pending (db s)) in
  set_db {| committed := committed (db s); pending := fst r |} ;;
  call (Execute sql param (snd r)) (snd r).

(** What a completed commit or rollback leaves. *)
Definition settled (how : completion) (d : Database) : Database :=
  match how with
  | SQL_COMMIT => {| committed := pending d; pending := pending d |}
  | SQL_ROLLBACK => {| committed := committed d; pending := committed d |}
  end.

(** Ending the transaction, which may raise. *)
Definition end_tran (w : World) (how : completion) : Stmt unit :=
  s <- get ;;
  match end_transaction w how (db s) with
  | None => set_db (settled how (db s))
  | Some (e, d) => set_db d ;; raise e
  end.

Definition do_commit (w : World) : Stmt unit := end_tran w SQL_COMMIT.

Definition do_rollback (w : World) : Stmt unit := end_tran w SQL_ROLLBACK.

(** [conn.commit()] and [conn.rollback()]. *)
Definition commit (w : World) : Stmt unit := emit Commit ;; do_commit w.

Definition rollback (w : World) : Stmt unit := emit Rollback ;; do_rollback w.

(** [with conn.cursor() as cursor: body]: when the block is left without
    an exception the cursor commits, which may raise; an exception of the
    block passes through. *)
Definition with_cursor {A} (w : World) (body : Stmt A) : Stmt A :=
  emit OpenCursor ;;
  a <- try_except body (fun e => emit (CursorExit true) ;; raise e) ;;
  emit (CursorExit false) ;;
  do_commit w ;;
  ret a.

(** [with conn: body]: when the block is left the connection commits
    after a normal exit and rolls back after an exception; either may
    raise, and what it raises replaces the exception of the block. *)
Definition with_connection {A} (w : World) (body : Stmt A) : Stmt A :=
  outcome <- try_except (a <- body ;; ret (inr a)) (fun e => ret (inl e)) ;;
  match outcome with
  | inr a => emit (ConnectionExit false) ;; do_commit w ;; ret a
  | inl e => emit (ConnectionExit true) ;; do_rollback w ;; raise e
  end.

Definition nl : string := String (ascii_of_nat 10) EmptyString.

Definition indent : string := "                    ".

(** Lines 82-91. *)
Definition logs_query : string :=
  nl ++ indent ++ "DELETE FROM Logs " ++ nl
     ++ indent ++ "WHERE CreatedDate < DATEADD(day, ?, GETDATE())" ++ nl
     ++ indent.

Definition audit_trail_query : string :=
  nl ++ indent ++ "DELETE FROM AuditTrail " ++ nl
     ++ indent ++ "WHERE Timestamp < DATEADD(day, ?, GETDATE())" ++ nl
     ++ indent.

Definition cleanup_queries : list string := [logs_query; audit_trail_query].

(** Line 97: [query.split("FROM")[1].split("WHERE")[0].strip()]. *)
Definition extract_table_name (query : string) : Py.exn + string :=
  Py.and_then (Py.split "FROM" query) (fun parts =>
  Py.and_then (Py.index parts 1) (fun after_from =>
  Py.and_then (Py.split "WHERE" after_from) (fun parts' =>
  Py.and_then (Py.index parts' 0) (fun before_where =>
  inr (Py.strip before_where))))).

(** Line 98. *)
Definition exists_query (table : string) : string :=
  "SELECT COUNT(*) FROM INFORMATION_SCHEMA.TABLES WHERE TABLE_NAME = '"
    ++ table ++ "'".

(** Line 104. *)
Definition count_query (query : string) : string :=
  Py.replace "DELETE FROM" "SELECT COUNT(*) FROM" query.

(** [cursor.fetchone()[0] == 0]. *)
Definition is_zero (v : sqlvalue) : bool :=
  match v with
  | VInt z => (z =? 0)%Z
  | VStr _ => false
  end.

(** Lines 95-117, the body of [for query in cleanup_queries].
    [retention_days] is still the text read from the environment. *)
Definition process_query (w : World) (retention_days : string) (query : string)
  : Stmt unit :=
  try_except
    (t <- eval (extract_table_name query) ;;
     set_table_name t ;;
     found <- cursor_execute w (exists_query t) None ;;
     if is_zero (fetchone0 found) then
       log Py.WARNING (TableMissing t)
     else
       let count_query := count_query query in
       days <- eval (Py.int retention_days) ;;
       counted <- cursor_execute w count_query (Some (- days)%Z) ;;
       let to_delete_count := fetchone0 counted in
       log Py.INFO (FoundRecords to_delete_count t) ;;
       days' <- eval (Py.int retention_days) ;;
       deleted <- cursor_execute w query (Some (- days')%Z) ;;
       let deleted_rows := rowcount deleted in
       add_total_deleted deleted_rows ;;
       log Py.INFO (DeletedRows deleted_rows t) ;;
       commit w)
    (fun e =>
       s <- get ;;
       match table_name s with
       | None => raise Py.NameError
       | Some t => log Py.ERROR (QueryFailed t e) ;; rollback w
       end).

(** Lines 34-42 and 57-64. *)
Definition conn_str (server database : string) : string :=
  "Driver={ODBC Driver 17 for SQL Server};"
    ++ "Server=tcp:" ++ server ++ ",1433;"
    ++ "Database=" ++ database ++ ";"
    ++ "Authentication=ActiveDirectoryMSI;"
    ++ "Encrypt=yes;"
    ++ "TrustServerCertificate=no;"
    ++ "Connection Timeout=30;".

Definition conn_str_token (server database : string) : string :=
  "Driver={ODBC Driver 17 for SQL Server};"
    ++ "Server=tcp:" ++ server ++ ",1433;"
    ++ "Database=" ++ database ++ ";"
    ++ "Encrypt=yes;"
    ++ "TrustServerCertificate=no;"
    ++ "Connection Timeout=30;".

Definition token_scope : string := "https://database.windows.net/.default".

(** [SQL_COPT_SS_ACCESS_TOKEN], the key of [attrs_before]. *)
Definition access_token_attribute : Z := 1256.

(** Lines 47-69. *)
Definition open_connection (w : World) (server database token : string)
  : Stmt unit :=
  try_except
    (log Py.INFO AttemptingMSI ;;
     call (Connect (conn_str server database) None)
          (connect w (conn_str server database) None) ;;
     log Py.INFO ConnectedMSI)
    (fun msi_error =>
       match msi_error with
       | Py.PyodbcError =>
           log Py.WARNING (MSIFailed msi_error) ;;
           log Py.INFO AttemptingToken ;;
           try_except
             (let attrs := Some (access_token_attribute, token) in
              call (Connect (conn_str_token server database) attrs)
                   (connect w (conn_str_token server database) attrs) ;;
              log Py.INFO ConnectedToken)
             (fun token_error =>
                match token_error with
                | Py.PyodbcError =>
                    log Py.ERROR (TokenFailed token_error) ;;
                    raise token_error
                | _ => raise token_error
                end)
       | _ => raise msi_error
       end).

(** Lines 73-119, the block under [with conn.cursor() as cursor]. *)
Definition with_cursor_block (w : World) (retention_days : string) : Stmt unit :=
  try_except
    (version <- cursor_execute w "SELECT @@VERSION" None ;;
     log Py.INFO (ServerVersion (fetchone0 version)))
    (fun e => log Py.ERROR (TestFailed e) ;; raise e) ;;
  for_each cleanup_queries (process_query w retention_days) ;;
  s <- get ;;
  log Py.INFO (Completed (total_deleted s)).

(** Lines 13-119, the body of the outer [try]. *)
Definition cleanup (w : World) : Stmt unit :=
  let server := SQL_SERVER w in
  let database := SQL_DATABASE w in
  let retention_days := Py.get_default (RETENTION_DAYS w) "90" in
  log Py.INFO (ServerConfigured (Py.truthy server)) ;;
  log Py.INFO (DatabaseConfigured (Py.truthy database)) ;;
  log Py.INFO (RetentionConfigured retention_days) ;;
  (if negb (Py.truthy server) || negb (Py.truthy database)
   then raise Py.ValueError else ret tt) ;;
  let server := Py.get_default server "" in
  let database := Py.get_default database "" in
  log Py.INFO AvailableDrivers ;;
  emit Drivers ;;
  log Py.INFO (DriverList (drivers w)) ;;
  emit DefaultAzureCredential ;;
  token <- call (GetToken token_scope) (get_token w token_scope) ;;
  log Py.INFO TokenAcquired ;;
  log Py.INFO AttemptingConnect ;;
  log Py.INFO (MaskedConnectionString server database) ;;
  open_connection w server database token ;;
  with_connection w (with_cursor w (with_cursor_block w retention_days)).

(** Lines 8-128. *)
Definition main (w : World) : Stmt unit :=
  log Py.INFO Triggered ;;
  try_except (cleanup w)
    (fun e =>
       match e with
       | Py.ValueError => log Py.ERROR (ConfigurationError e) ;; raise e
       | _ =>
           log Py.ERROR (FunctionError e) ;;
           log Py.ERROR (ErrorType e) ;;
           log Py.ERROR (ErrorArgs e) ;;
           raise e
       end).

(** One invocation of the function. *)
Definition run (w : World) : result Locals event unit := main w (initial w).

Definition is_authentication (ev : event) : bool :=
  match ev with
  | GetToken _ | Connect _ _ => true
  | _ => false
  end.

Definition is_execute (ev : event) : bool :=
  match ev with Execute _ _ _ => true | _ => false end.

(** The statement text of an event, when it is a statement. *)
Definition statement (ev : event) : option string :=
  match ev with Execute sql _ _ => Some sql | _ => None end.

(** The statements one iteration may send for [query] and its table. *)
Definition sent_for (query table : string) (ev : event) : Prop :=
  match ev with
  | Execute sql _ _ =>
      sql = exists_query table \/ sql = count_query query \/ sql = query
  | _ => True
  end.

(** A server to run the job on.  The identity embedded in the connection
    string is refused and the explicit token is accepted; the catalog has
    [Logs] and no [AuditTrail]; the delete on [Logs] fails after the open
    transaction has lost its rows. *)
Module Demo.

Definition rows : Store := [("Logs", [10; 20; 30]%Z)].

Definition scalar (z : Z) : Py.exn + Answer :=
  inr {| fetchone0 := VInt z; rowcount := (-1)%Z |}.

Definition server (sql : string) (param : option Z) (store : Store)
  : Store * (Py.exn + Answer) :=
  if String.eqb sql "SELECT @@VERSION" then
    (store, inr {| fetchone0 := VStr "Microsoft SQL Azure"; rowcount := (-1)%Z |})
  else if String.eqb sql (exists_query "Logs") then (store, scalar 1)
  else if String.eqb sql (exists_query "AuditTrail") then (store, scalar 0)
  else if String.eqb sql (count_query logs_query) then (store, scalar 2)
  else if String.eqb sql logs_query then ([("Logs", [])], inl Py.PyodbcError)
  else (store, inl Py.PyodbcError).

Definition world : World :=
  {| SQL_SERVER := Some "srv.database.windows.net";
     SQL_DATABASE := Some "appdb";
     RETENTION_DAYS := None;
     drivers := ["ODBC Driver 17 for SQL Server"];
     get_token := fun _ => inr "eyJ0";
     connect := fun _ attrs =>
       match attrs with
       | None => inl Py.PyodbcError
       | Some _ => inr tt
       end;
     server_store := rows;
     execute := server;
     end_transaction := fun _ _ => None |}.

(** The same server accepting the identity of the connection string. *)
Definition msi_accepted : World :=
  {| SQL_SERVER := SQL_SERVER world;
     SQL_DATABASE := SQL_DATABASE world;
     RETENTION_DAYS := RETENTION_DAYS world;
     drivers := drivers world;
     get_token := get_token world;
     connect := fun _ _ => inr tt;
     server_store := rows;
     execute := server;
     end_transaction := fun _ _ => None |}.

(** The same server refusing both ways of authenticating. *)
Definition locked_out : World :=
  {| SQL_SERVER := SQL_SERVER world;
     SQL_DATABASE := SQL_DATABASE world;
     RETENTION_DAYS := RETENTION_DAYS world;
     drivers := drivers world;
     get_token := get_token world;
     connect := fun _ _ => inl Py.PyodbcError;
     server_store := rows;
     execute := server;
     end_transaction := fun _ _ => None |}.

(** An identity provider that issues no token. *)
Definition no_token : World :=
  {| SQL_SERVER := SQL_SERVER world;
     SQL_DATABASE := SQL_DATABASE world;
     RETENTION_DAYS := RETENTION_DAYS world;
     drivers := drivers world;
     get_token := fun _ => inl Py.OtherException;
     connect := fun _ _ => inr tt;
     server_store := rows;
     execute := server;
     end_transaction := fun _ _ => None |}.


Definition unconfigured : World :=
  {| SQL_SERVER := None;
     SQL_DATABASE := Some "appdb";
     RETENTION_DAYS := None;
     drivers := drivers world;
     get_token := get_token world;
     connect := fun _ _ => inr tt;
     server_store := rows;
     execute := server;
     end_transaction := fun _ _ => None |}.

End Demo.

End DatabaseCleanup.

(* ===================================================================== *)
(** ** What a run of the blob job amounts to *)
(* ===================================================================== *)

Module BlobAccount.
Import BlobCleanup.

(** Whether [delete_blob] returns for an enumerated blob. *)
Definition delete_succeeds (w : World) (x : string * Blob * Z) : bool :=
  let '(c, b, _) := x in
  match delete_blob w c (name b) with
  | inr _ => true
  | inl _ => false
  end.

Definition deleted_ok (w : World) (retention_days : Z)
    (x : string * Blob * Z) : bool :=
  eligible retention_days x && delete_succeeds w x.

Definition delete_failed (w : World) (retention_days : Z)
    (x : string * Blob * Z) : bool :=
  eligible retention_days x && negb (delete_succeeds w x).

(** The containers whose listing raises. *)
Definition listing_fails (w : World) (container : string) : bool :=
  match list_blobs w container with
  | inl _ => true
  | inr _ => false
  end.

(** The counters that [seen], the blobs gone through, and [failures], the
    number of listings that raised, add up to. *)
Definition tally_seen (w : World) (retention_days : Z)
    (seen : list (string * Blob * Z)) (failures : nat) : Counters :=
  {| deleted_count := List.length (filter (deleted_ok w retention_days) seen);
     processed_count := List.length seen;
     error_count :=
       List.length (filter (delete_failed w retention_days) seen) + failures |}.

(** The counters a pass over [containers] adds up to, [k] clock readings
    having been taken before. *)
Definition tally (w : World) (retention_days : Z) (k : nat)
    (containers : list string) : Counters :=
  tally_seen w retention_days (enumerated w k containers)
             (List.length (filter (listing_fails w) containers)).

Definition plus (a b : Counters) : Counters :=
  {| deleted_count := deleted_count a + deleted_count b;
     processed_count := processed_count a + processed_count b;
     error_count := error_count a + error_count b |}.

(** The five lines of lines 99-103. *)
Definition summary_lines (containers : nat) (c : Counters) : list event :=
  [Log Py.INFO SummaryHeader;
   Log Py.INFO (SummaryContainers containers);
   Log Py.INFO (SummaryProcessed (processed_count c));
   Log Py.INFO (SummaryDeleted (deleted_count c));
   Log Py.INFO (SummaryErrors (error_count c))].

(** The lines of the handlers of lines 105-111. *)
Definition handler_lines (e : Py.exn) : list event :=
  match e with
  | Py.ValueError => [Log Py.ERROR (ConfigurationError e)]
  | _ => [Log Py.ERROR (FunctionError e); Log Py.ERROR (ErrorType e)]
  end.

(** The same invocation with another [past_due] flag on the timer. *)
Definition with_past_due (flag : bool) (w : World) : World :=
  {| past_due := flag;
     STORAGE_ACCOUNT_NAME := STORAGE_ACCOUNT_NAME w;
     RETENTION_DAYS := RETENTION_DAYS w;
     get_account_information := get_account_information w;
     list_containers := list_containers w;
     list_blobs := list_blobs w;
     delete_blob := delete_blob w;
     now := now w |}.

(** The same invocation with another [RETENTION_DAYS] setting. *)
Definition with_retention (setting : option string) (w : World) : World :=
  {| past_due := past_due w;
     STORAGE_ACCOUNT_NAME := STORAGE_ACCOUNT_NAME w;
     RETENTION_DAYS := setting;
     get_account_information := get_account_information w;
     list_containers := list_containers w;
     list_blobs := list_blobs w;
     delete_blob := delete_blob w;
     now := now w |}.

(** The events of lines 10-47, up to the container loop. *)
Definition opening (w : World) (retention_days : Z) (sku : string)
    (containers : list string) : list event :=
  let account := Py.get_default (STORAGE_ACCOUNT_NAME w) "" in
  let account_url := ("https://" ++ account ++ ".blob.core.windows.net")%string in
  (Log Py.INFO Triggered
   :: (if past_due w then [Log Py.INFO PastDue] else []))
  ++ [Log Py.INFO (Configuration account retention_days);
      Log Py.INFO AcquiringToken;
      DefaultAzureCredential;
      Log Py.INFO (Connecting account_url);
      BlobServiceClient account_url;
      GetAccountInformation;
      Log Py.INFO (Connected sku);
      Log Py.INFO ListingContainers;
      ListContainers;
      Log Py.INFO (FoundContainers (List.length containers))].

(** Events that reach the storage account. *)
Definition is_storage_call (ev : event) : bool :=
  match ev with
  | GetAccountInformation | ListContainers | ListBlobs _ | DeleteBlob _ _ => true
  | _ => false
  end.

End BlobAccount.

(* ===================================================================== *)
(** ** What a run of the database job amounts to *)
(* ===================================================================== *)

Module DatabaseAccount.
Import DatabaseCleanup.

(** Line 15: the retention setting stays a text until a statement needs
    it. *)
Definition retention_setting (w : World) : string :=
  Py.get_default (RETENTION_DAYS w) "90".

Definition version_query : string := "SELECT @@VERSION".

(** What lines 13-69 come to: a connection, or the exception that ends
    the invocation. *)
Definition connection (w : World) : Py.exn + unit :=
  if negb (Py.truthy (SQL_SERVER w)) || negb (Py.truthy (SQL_DATABASE w))
  then inl Py.ValueError
  else
    let server := Py.get_default (SQL_SERVER w) "" in
    let database := Py.get_default (SQL_DATABASE w) "" in
    Py.and_then (get_token w token_scope) (fun token =>
    match connect w (conn_str server database) None with
    | inl Py.PyodbcError =>
        connect w (conn_str_token server database)
                (Some (access_token_attribute, token))
    | answer => answer
    end).

(** What the version probe of line 75 answers on the fresh connection. *)
Definition probe (w : World) : Store * (Py.exn + Answer) :=
  execute w version_query None (server_store w).

(** What lines 13-80 come to. *)
Definition preamble (w : World) : Py.exn + unit :=
  Py.and_then (connection w) (fun _ =>
  Py.and_then (snd (probe w)) (fun _ => inr tt)).

(** The locals on entering the table loop. *)
Definition at_loop_entry (w : World) : Locals :=
  {| db := {| committed := server_store w; pending := fst (probe w) |};
     total_deleted := 0;
     table_name := None |}.

(** The table loop of an invocation. *)
Definition table_loop (w : World) : Script.result Locals event unit :=
  Script.for_each cleanup_queries (process_query w (retention_setting w))
                  (at_loop_entry w).

(** Ending a transaction never raises. *)
Definition reliable (w : World) : Prop :=
  forall how d, end_transaction w how d = None.

(** [e] is what a rollback raises in some state of the connection. *)
Definition rollback_raises (w : World) (e : Py.exn) : Prop :=
  exists d d', end_transaction w SQL_ROLLBACK d = Some (e, d').

(** [e] is what ending a transaction raises in some state of the
    connection. *)
Definition raised_ending_a_transaction (w : World) (e : Py.exn) : Prop :=
  exists how d d', end_transaction w how d = Some (e, d').

(** The lines of the handlers of lines 121-128. *)
Definition handler_lines (e : Py.exn) : list event :=
  match e with
  | Py.ValueError => [Log Py.ERROR (ConfigurationError e)]
  | _ => [Log Py.ERROR (FunctionError e);
          Log Py.ERROR (ErrorType e);
          Log Py.ERROR (ErrorArgs e)]
  end.

(** A statement with its parameter, as sent. *)
Definition sent (ev : event) : option (string * option Z) :=
  match ev with
  | Execute sql param _ => Some (sql, param)
  | _ => None
  end.

Definition is_delete_statement (sql : string) : bool :=
  existsb (String.eqb sql) cleanup_queries.
Arguments is_delete_statement : simpl never.

(** The [rowcount] of a delete that answered. *)
Definition rows_deleted (ev : event) : Z :=
  match ev with
  | Execute sql _ (inr answer) =>
      if is_delete_statement sql then rowcount answer else 0%Z
  | _ => 0%Z
  end.

Definition total_rows (evs : list event) : Z :=
  fold_right (fun ev acc => (rows_deleted ev + acc)%Z) 0%Z evs.

(** How an iteration of the table loop may end. *)
Definition ends_iteration (table : string) (ev : event) : Prop :=
  ev = Commit \/ ev = Rollback \/ ev = Log Py.WARNING (TableMissing table).

(** The same invocation with another [RETENTION_DAYS] setting. *)
Definition with_retention (setting : option string) (w : World) : World :=
  {| SQL_SERVER := SQL_SERVER w;
     SQL_DATABASE := SQL_DATABASE w;
     RETENTION_DAYS := setting;
     drivers := drivers w;
     get_token := get_token w;
     connect := connect w;
     server_store := server_store w;
     execute := execute w;
     end_transaction := end_transaction w |}.

(** A server on which both tables exist and every statement answers: the
    count finds 2 rows in [Logs] and 5 in [AuditTrail], the deletes remove
    3 and 4. *)
Definition healthy_server (sql : string) (param : option Z) (store : Store)
  : Store * (Py.exn + Answer) :=
  if String.eqb sql version_query then
    (store, inr {| fetchone0 := VStr "Microsoft SQL Azure"; rowcount := (-1)%Z |})
  else if String.eqb sql (exists_query "Logs") then (store, Demo.scalar 1)
  else if String.eqb sql (exists_query "AuditTrail") then (store, Demo.scalar 1)
  else if String.eqb sql (count_query logs_query) then (store, Demo.scalar 2)
  else if String.eqb sql (count_query audit_trail_query) then (store, Demo.scalar 5)
  else if String.eqb sql logs_query then
    ([("Logs", [30%Z])], inr {| fetchone0 := VInt 0; rowcount := 3 |})
  else if String.eqb sql audit_trail_query then
    (store, inr {| fetchone0 := VInt 0; rowcount := 4 |})
  else (store, inl Py.PyodbcError).

Definition healthy : World :=
  {| SQL_SERVER := SQL_SERVER Demo.world;
     SQL_DATABASE := SQL_DATABASE Demo.world;
     RETENTION_DAYS := Some "30";
     drivers := drivers Demo.world;
     get_token := get_token Demo.world;
     connect := fun _ _ => inr tt;
     server_store := Demo.rows;
     execute := healthy_server;
     end_transaction := fun _ _ => None |}.



(** A server whose version probe fails. *)
Definition unreachable : World :=
  {| SQL_SERVER := SQL_SERVER Demo.world;
     SQL_DATABASE := SQL_DATABASE Demo.world;
     RETENTION_DAYS := None;
     drivers := drivers Demo.world;
     get_token := get_token Demo.world;
     connect := fun _ _ => inr tt;
     server_store := Demo.rows;
     execute := fun _ _ store => (store, inl Py.PyodbcError);
     end_transaction := fun _ _ => None |}.

End DatabaseAccount.

(* ===================================================================== *)
(** ** Positions in a text *)
(* ===================================================================== *)

Module Text.

(** [s[n:]]. *)
Fixpoint drop (n : nat) (s : string) : string :=
  match n, s with
  | O, _ => s
  | S k, String _ s' => drop k s'
  | S _, EmptyString => EmptyString
  end.

(** Whether an occurrence of [sep] starts at position [i] of [s]. *)
Definition starts_at (sep s : string) (i : nat) : bool := prefix sep (drop i s).

(** No occurrence of [sep] starts among the first [n] positions of [s]. *)
Definition absent_before (sep s : string) (n : nat) : Prop :=
  forall i, i < n -> starts_at sep s i = false.

Definition absent_before_check (sep s : string) (n : nat) : bool :=
  forallb (fun i => negb (starts_at sep s i)) (seq 0 n).

(** [sep.join(pieces)]. *)
Fixpoint join (sep : string) (pieces : list string) : string :=
  match pieces with
  | [] => EmptyString
  | p :: ps =>
      match ps with
      | [] => p
      | _ => p ++ sep ++ join sep ps
      end
  end.

End Text.

(* ===================================================================== *)
(** ** The Python fragment on small inputs *)
(* ===================================================================== *)

Example split_on_keyword : Py.split "FROM" "aFROMbFROMc" = inr ["a"; "b"; "c"].
Proof. reflexivity. Qed.

Example split_does_not_overlap : Py.split "aa" "aaa" = inr [""; "a"].
Proof. reflexivity. Qed.

Example int_accepts_and_rejects :
  Py.int " -1_000 " = inr (-1000)%Z /\ Py.int "90" = inr 90%Z
  /\ Py.int "1__0" = inl Py.ValueError /\ Py.int "" = inl Py.ValueError
  /\ Py.int "_1" = inl Py.ValueError /\ Py.int "1_" = inl Py.ValueError
  /\ Py.int "ninety" = inl Py.ValueError
  /\ Py.int (String (ascii_of_nat 28) "12") = inl Py.ValueError
  /\ Py.int (String (ascii_of_nat 160) "12") = inr 12%Z.
Proof. repeat split; reflexivity. Qed.

Example replace_every_occurrence : Py.replace "ab" "x" "abcabab" = "xcxx".
Proof. reflexivity. Qed.

Example strip_both_ends : Py.strip "  a b  " = "a b".
Proof. reflexivity. Qed.

(* ===================================================================== *)
(** ** Laws of the script combinators *)
(* ===================================================================== *)

Module ScriptFacts.
Import Script.

Section Laws.
Context {S E : Type}.

Lemma for_each_cons {A} (x : A) (l : list A) (body : A -> M S E unit) (s : S) :
  for_each (x :: l) body s = bind (body x) (fun _ => for_each l body) s.
Proof. reflexivity. Qed.

(** An iteration that returns is followed by the rest of the loop, run
    from the locals the iteration left. *)
Lemma for_each_continues {A} (x : A) (l : list A) (body : A -> M S E unit)
      (s : S) (u : unit) :
  value (body x s) = inr u ->
  for_each (x :: l) body s =
    let r := body x s in
    let r' := for_each l body (locals r) in
    Result (locals r') (events r ++ events r') (value r').
Proof.
  intros H. cbn. unfold bind.
  destruct (body x s) as [s1 ev1 v1]. cbn in H. subst v1. cbn.
  destruct (for_each l body s1); reflexivity.
Qed.

(** A loop whose iterations all return goes through the whole list. *)
Lemma for_each_returns {A} (l : list A) (body : A -> M S E unit) :
  (forall x s, In x l -> value (body x s) = inr tt) ->
  forall s, value (for_each l body s) = inr tt.
Proof.
  induction l as [|x l IH]; intros H s.
  - reflexivity.
  - cbn. unfold bind.
    pose proof (H x s (or_introl eq_refl)) as Hx.
    destruct (body x s) as [s1 ev1 v1]. cbn in Hx. subst v1.
    assert (IH' : value (for_each l body s1) = inr tt)
      by (apply IH; intros y s' Hy; apply H; now right).
    destruct (for_each l body s1) as [s2 ev2 v2]. exact IH'.
Qed.

(** A loop issues none of the events [p] selects when no iteration
    does. *)
Lemma for_each_filter_nil {A} (p : E -> bool) (l : list A)
      (body : A -> M S E unit) :
  (forall x s, In x l -> filter p (events (body x s)) = []) ->
  forall s, filter p (events (for_each l body s)) = [].
Proof.
  induction l as [|x l IH]; intros H s.
  - reflexivity.
  - cbn. unfold bind.
    pose proof (H x s (or_introl eq_refl)) as Hx.
    destruct (body x s) as [s1 ev1 [e|u]]; cbn in *; [exact Hx|].
    assert (IH' : filter p (events (for_each l body s1)) = [])
      by (apply IH; intros y s' Hy; apply H; now right).
    destruct (for_each l body s1) as [s2 ev2 v2]; cbn in *.
    now rewrite filter_app, Hx, IH'.
Qed.

(** A loop begins with its first iteration. *)
Lemma for_each_begins {A} (x : A) (l : list A) (body : A -> M S E unit) (s : S) :
  exists rest,
    events (for_each (x :: l) body s) = (events (body x s) ++ rest)%list.
Proof.
  cbn. unfold bind. destruct (body x s) as [s1 ev1 [e|u]]; cbn.
  - exists []. now rewrite app_nil_r.
  - destruct (for_each l body s1) as [s2 ev2 v2]. cbn. now exists ev2.
Qed.


(** A loop raises only what one of its iterations raises. *)
Lemma for_each_raises {A} (P : Py.exn -> Prop) (l : list A)
      (body : A -> M S E unit) :
  (forall x s e, In x l -> value (body x s) = inl e -> P e) ->
  forall s e, value (for_each l body s) = inl e -> P e.
Proof.
  induction l as [|x l IH]; intros H s e Hv.
  - discriminate.
  - cbn in Hv. unfold bind in Hv.
    pose proof (H x s) as Hx.
    destruct (body x s) as [s1 ev1 [e1|u]]; cbn in *.
    + injection Hv as <-. apply Hx; auto.
    + assert (IH' : forall e', value (for_each l body s1) = inl e' -> P e')
        by (intros e'; apply IH; intros y s' e'' Hy; apply H; now right).
      destruct (for_each l body s1) as [s2 ev2 v2]; cbn in *. now apply IH'.
Qed.

(** A quantity of the locals that every iteration moves by a quantity of
    its events moves by that quantity of the events of the loop. *)
Lemma for_each_measure {A} (f : S -> Z) (g : list E -> Z) (l : list A)
      (body : A -> M S E unit) :
  g [] = 0%Z ->
  (forall l1 l2, g (l1 ++ l2)%list = (g l1 + g l2)%Z) ->
  (forall x s, In x l ->
               f (locals (body x s)) = (f s + g (events (body x s)))%Z) ->
  forall s, f (locals (for_each l body s))
            = (f s + g (events (for_each l body s)))%Z.
Proof.
  intros Hnil Happ. induction l as [|x l IH]; intros H s.
  - cbn. rewrite Hnil. lia.
  - cbn. unfold bind.
    pose proof (H x s (or_introl eq_refl)) as Hx.
    destruct (body x s) as [s1 ev1 [e|u]]; cbn in *; [exact Hx|].
    assert (IH' : f (locals (for_each l body s1))
                  = (f s1 + g (events (for_each l body s1)))%Z)
      by (apply IH; intros y s' Hy; apply H; now right).
    destruct (for_each l body s1) as [s2 ev2 v2]; cbn in *.
    rewrite Happ. lia.
Qed.

End Laws.
End ScriptFacts.

(* ===================================================================== *)
(** ** The blob job: one blob, one container, the whole loop *)
(* ===================================================================== *)

Module BlobFacts.
Import Script BlobCleanup.

(** Unfolds the body of the blob loop and splits on the test of line 79
    and on what [delete_blob] answers. *)
Ltac blob_cases w c b :=
  unfold process_blob; cbn; unfold bind, try_except, call; cbn;
  destruct (should_delete _ b _) eqn:?; cbn;
  [ destruct (delete_blob w c (name b)) as [[]|[]] eqn:?; cbn | ].

Lemma days_between_floor (t1 t0 : Z) :
  (days_between t1 t0 * microseconds_per_day <= t1 - t0
   < (days_between t1 t0 + 1) * microseconds_per_day)%Z.
Proof.
  unfold days_between, microseconds_per_day.
  pose proof (Z.div_mod (t1 - t0) 86400000000 ltac:(lia)) as Hdm.
  pose proof (Z.mod_pos_bound (t1 - t0) 86400000000 ltac:(lia)) as Hb.
  lia.
Qed.

Lemma is_archive_spec (tier : option string) :
  is_archive tier = true <-> tier = Some "Archive"%string.
Proof.
  destruct tier as [t|]; cbn.
  - rewrite String.eqb_eq. split; congruence.
  - split; discriminate.
Qed.

Lemma should_delete_spec (retention_days : Z) (blob : Blob) (age_days : Z) :
  should_delete retention_days blob age_days = true <->
  blob_tier blob = Some "Archive"%string /\ (age_days > retention_days)%Z.
Proof.
  unfold should_delete. rewrite andb_true_iff, is_archive_spec.
  rewrite Z.gtb_lt. intuition lia.
Qed.

Lemma process_blob_returns w rd c b s :
  value (process_blob w rd c b s) = inr tt.
Proof. blob_cases w c b; reflexivity. Qed.

Lemma process_blob_clock w rd c b s :
  clock_reads (locals (process_blob w rd c b s)) = S (clock_reads s).
Proof. blob_cases w c b; reflexivity. Qed.

Lemma process_blob_deletes w rd c b s :
  filter is_delete (events (process_blob w rd c b s)) =
  if eligible rd (c, b, now w (clock_reads s)) then [DeleteBlob c (name b)] else [].
Proof. blob_cases w c b; reflexivity. Qed.

Lemma process_blob_skips w rd c b s :
  filter is_skip (events (process_blob w rd c b s)) =
  if eligible rd (c, b, now w (clock_reads s))
  then [] else [skip_of (c, b, now w (clock_reads s))].
Proof. blob_cases w c b; reflexivity. Qed.

(** The blob loop of one container. *)
Lemma blob_loop_returns w rd c blobs s :
  value (for_each blobs (process_blob w rd c) s) = inr tt.
Proof.
  apply ScriptFacts.for_each_returns. intros; apply process_blob_returns.
Qed.

Lemma blob_loop_step w rd c b blobs s :
  for_each (b :: blobs) (process_blob w rd c) s =
  let r := process_blob w rd c b s in
  let r' := for_each blobs (process_blob w rd c) (locals r) in
  Result (locals r') (events r ++ events r') (value r').
Proof.
  apply ScriptFacts.for_each_continues with (u := tt), process_blob_returns.
Qed.

Lemma blob_loop_clock w rd c blobs : forall s,
  clock_reads (locals (for_each blobs (process_blob w rd c) s)) =
  clock_reads s + List.length blobs.
Proof.
  induction blobs as [|b blobs IH]; intros s.
  - cbn. lia.
  - rewrite blob_loop_step. cbn -[process_blob for_each].
    rewrite IH, process_blob_clock. cbn. lia.
Qed.

Lemma blob_loop_deletes w rd c blobs : forall s,
  filter is_delete (events (for_each blobs (process_blob w rd c) s)) =
  map delete_of (filter (eligible rd) (stamp w (clock_reads s) c blobs)).
Proof.
  induction blobs as [|b blobs IH]; intros s.
  - reflexivity.
  - rewrite blob_loop_step. cbn -[process_blob for_each eligible].
    rewrite filter_app, IH, process_blob_deletes, process_blob_clock.
    destruct (eligible rd _); reflexivity.
Qed.

Lemma blob_loop_skips w rd c blobs : forall s,
  filter is_skip (events (for_each blobs (process_blob w rd c) s)) =
  map skip_of (filter (fun x => negb (eligible rd x)) (stamp w (clock_reads s) c blobs)).
Proof.
  induction blobs as [|b blobs IH]; intros s.
  - reflexivity.
  - rewrite blob_loop_step. cbn -[process_blob for_each eligible skip_of].
    rewrite filter_app, IH, process_blob_skips, process_blob_clock.
    destruct (eligible rd _); reflexivity.
Qed.

(** One container: either its listing raised, or its blobs went through
    the blob loop. *)
Lemma process_container_listed w rd c blobs s :
  list_blobs w c = inr blobs ->
  process_container w rd c s =
  let r := for_each blobs (process_blob w rd c) s in
  Result (locals r)
         (Log Py.INFO (ProcessingContainer c) :: GetContainerClient c
            :: ListBlobs c :: Log Py.INFO (FoundBlobs (List.length blobs) c)
            :: events r)
         (inr tt).
Proof.
  intros H. unfold process_container. cbn. unfold bind, try_except, call. cbn.
  rewrite H. cbn.
  pose proof (blob_loop_returns w rd c blobs s) as Hv.
  destruct (for_each blobs (process_blob w rd c) s) as [s1 ev1 v1].
  cbn in Hv. subst v1. reflexivity.
Qed.

Lemma process_container_failed w rd c e s :
  list_blobs w c = inl e ->
  process_container w rd c s =
  Result {| counters := {| deleted_count := deleted_count (counters s);
                           processed_count := processed_count (counters s);
                           error_count := S (error_count (counters s)) |};
            clock_reads := clock_reads s;
            history := {| deleted_count := deleted_count (counters s);
                          processed_count := processed_count (counters s);
                          error_count := S (error_count (counters s)) |}
                       :: history s |}
         [Log Py.INFO (ProcessingContainer c); GetContainerClient c;
          ListBlobs c; Log Py.ERROR (ContainerFailed c e)]
         (inr tt).
Proof.
  intros H. unfold process_container. cbn. unfold bind, try_except, call. cbn.
  rewrite H. reflexivity.
Qed.

Lemma process_container_returns w rd c s :
  value (process_container w rd c s) = inr tt.
Proof.
  destruct (list_blobs w c) as [e|blobs] eqn:H.
  - rewrite (process_container_failed _ _ _ _ _ H). reflexivity.
  - rewrite (process_container_listed _ _ _ _ _ H). reflexivity.
Qed.

Lemma container_loop_step w rd c cs s :
  for_each (c :: cs) (process_container w rd) s =
  let r := process_container w rd c s in
  let r' := for_each cs (process_container w rd) (locals r) in
  Result (locals r') (events r ++ events r') (value r').
Proof.
  apply ScriptFacts.for_each_continues with (u := tt), process_container_returns.
Qed.

Lemma container_loop_returns w rd cs s :
  value (for_each cs (process_container w rd) s) = inr tt.
Proof.
  apply ScriptFacts.for_each_returns. intros; apply process_container_returns.
Qed.

Lemma container_loop_deletes w rd cs : forall s,
  filter is_delete (events (for_each cs (process_container w rd) s)) =
  map delete_of (filter (eligible rd) (enumerated w (clock_reads s) cs)).
Proof.
  induction cs as [|c cs IH]; intros s.
  - reflexivity.
  - rewrite container_loop_step. cbn -[process_container for_each eligible].
    rewrite filter_app, IH. cbn [enumerated].
    destruct (list_blobs w c) as [e|blobs] eqn:H.
    + rewrite (process_container_failed _ _ _ _ _ H). reflexivity.
    + rewrite (process_container_listed _ _ _ _ _ H).
      cbn -[for_each eligible].
      rewrite blob_loop_deletes, blob_loop_clock, filter_app, map_app.
      reflexivity.
Qed.

Lemma container_loop_skips w rd cs : forall s,
  filter is_skip (events (for_each cs (process_container w rd) s)) =
  map skip_of (filter (fun x => negb (eligible rd x)) (enumerated w (clock_reads s) cs)).
Proof.
  induction cs as [|c cs IH]; intros s.
  - reflexivity.
  - rewrite container_loop_step. cbn -[process_container for_each eligible skip_of].
    rewrite filter_app, IH. cbn [enumerated].
    destruct (list_blobs w c) as [e|blobs] eqn:H.
    + rewrite (process_container_failed _ _ _ _ _ H). reflexivity.
    + rewrite (process_container_listed _ _ _ _ _ H).
      cbn -[for_each eligible skip_of].
      rewrite blob_loop_skips, blob_loop_clock, filter_app, map_app.
      reflexivity.
Qed.

End BlobFacts.


(* ===================================================================== *)
(** ** The blob job: the whole invocation *)
(* ===================================================================== *)

Module BlobRun.
Import Script BlobCleanup BlobFacts.

(** Splits on every answer the preamble of the invocation depends on. *)
Ltac preamble_cases w :=
  unfold preamble, run, main, cleanup;
  destruct (Py.int (Py.get_default (RETENTION_DAYS w) "90")) as [?e|?rd] eqn:?;
  destruct (Py.truthy (STORAGE_ACCOUNT_NAME w)) eqn:?;
  destruct (get_account_information w) as [?e|?sku] eqn:?;
  destruct (list_containers w) as [?e|?cs] eqn:?;
  destruct (past_due w) eqn:?.

(** An invocation whose preamble succeeds runs the container loop from
    zeroed counters and then logs the summary. *)
Lemma run_reaches_loop w rd cs :
  preamble w = inr (rd, cs) ->
  let r := for_each cs (process_container w rd) at_loop_entry in
  locals (run w) = locals r
  /\ value (run w) = inr tt
  /\ filter is_delete (events (run w)) = filter is_delete (events r)
  /\ filter is_skip (events (run w)) = filter is_skip (events r).
Proof.
  intros H. revert H. preamble_cases w; cbn; try discriminate;
    intros H; injection H as -> ->;
    unfold bind, try_except, call, eval;
    cbn -[for_each String.append];
    change {| counters := zero; clock_reads := 0; history := [zero] |}
      with at_loop_entry;
    pose proof (container_loop_returns w rd cs at_loop_entry) as Hv;
    destruct (for_each cs (process_container w rd) at_loop_entry)
      as [s1 ev1 v1]; cbn in Hv; subst v1;
    cbn -[String.append]; rewrite !filter_app; cbn; rewrite !app_nil_r; auto.
Qed.

(** An invocation whose preamble raises ends with that exception, having
    touched no blob and no counter. *)
Lemma run_stops_early w e :
  preamble w = inl e ->
  value (run w) = inl e
  /\ locals (run w) = initial
  /\ filter is_delete (events (run w)) = []
  /\ filter is_skip (events (run w)) = [].
Proof.
  intros H. revert H. preamble_cases w; cbn; try discriminate;
    intros H; injection H as <-;
    unfold bind, try_except, call, eval; cbn -[String.append];
    match goal with
    | |- context [match ?x with Py.ValueError => _ | _ => _ end] =>
        destruct x; cbn -[String.append]
    | _ => idtac
    end; repeat split; auto.
Qed.

(** Listing the containers is outside the per-container [try]: when it
    raises, the invocation ends with that exception. *)
Lemma listing_containers_failure_is_fatal w rd sku e :
  Py.int (Py.get_default (RETENTION_DAYS w) "90") = inr rd ->
  Py.truthy (STORAGE_ACCOUNT_NAME w) = true ->
  get_account_information w = inr sku ->
  list_containers w = inl e ->
  value (run w) = inl e /\ locals (run w) = initial.
Proof.
  intros Hint Hacc Hinfo Hlist.
  assert (Hp : preamble w = inl e)
    by (unfold preamble; rewrite Hint, Hacc, Hinfo, Hlist; reflexivity).
  destruct (run_stops_early w e Hp) as (Hv & Hl & _). auto.
Qed.

(** Without an account name the invocation raises [ValueError] after log
    lines only. *)
Lemma run_without_account w :
  Py.truthy (STORAGE_ACCOUNT_NAME w) = false ->
  value (run w) = inl Py.ValueError
  /\ forallb is_log (events (run w)) = true
  /\ locals (run w) = initial.
Proof.
  intros H. unfold run, main, cleanup. rewrite H.
  assert (Hint : forall s e, Py.int s = inl e -> e = Py.ValueError).
  { intros s e. unfold Py.int. destruct (Py.int_value s); congruence. }
  destruct (Py.int (Py.get_default (RETENTION_DAYS w) "90")) as [e|rd] eqn:Hi;
    [apply Hint in Hi; subst e|];
    destruct (past_due w); cbn; auto.
Qed.

End BlobRun.

Module BlobDemo.
Import Script BlobCleanup.

(** The scenario of the specification: with a retention of 90 days the
    Archive blob of 100 days is deleted, the Hot blob of 200 days is
    skipped; the invocation ends normally with 4 blobs processed, 1 deleted
    and 2 errors (the container that cannot be listed and the blob already
    gone). *)
Example blob_demo_run :
  value (run Demo.world) = inr tt
  /\ counters (locals (run Demo.world))
     = {| deleted_count := 1; processed_count := 4; error_count := 2 |}
  /\ filter is_delete (events (run Demo.world))
     = [DeleteBlob "archive1" "x.txt"; DeleteBlob "archive2" "gone.txt"]
  /\ In (Log Py.INFO (Skipping "y.txt" (Some "Hot"%string) 200)) (events (run Demo.world))
  /\ In (Log Py.INFO (Skipping "fresh.txt" (Some "Archive"%string) 0)) (events (run Demo.world)).
Proof.
  vm_compute.
  repeat split; try reflexivity; repeat (first [left; reflexivity | right]).
Qed.

End BlobDemo.

(* ===================================================================== *)
(** ** The blob job: deletion policy and fault isolation *)
(* ===================================================================== *)

Module BlobSpec.
Import Script BlobCleanup BlobFacts BlobRun.

(** C1.  For every blob the job enumerates, the job issues the delete of
    that blob if and only if the blob's tier is Archive and its age in whole
    days, the floor of the clock reading minus [last_modified], is strictly
    greater than [retention_days]; a blob failing the test gets no delete
    call and is logged as skipped.  This holds for the body of the blob
    loop, for the container loop over what it enumerates, and for the whole
    invocation. *)
Theorem blob_deleted_iff_archive_and_expired :
  forall (w : World),
    (forall retention_days container blob s,
        let t := now w (clock_reads s) in
        let age_days := days_between t (last_modified blob) in
        let r := process_blob w retention_days container blob s in
        (age_days * microseconds_per_day <= t - last_modified blob
         < (age_days + 1) * microseconds_per_day)%Z
        /\ (forall c n,
               In (DeleteBlob c n) (events r) <->
               c = container /\ n = name blob
               /\ blob_tier blob = Some "Archive"%string
               /\ (age_days > retention_days)%Z)
        /\ (In (Log Py.INFO (Skipping (name blob) (blob_tier blob) age_days))
               (events r) <->
            ~ (blob_tier blob = Some "Archive"%string
               /\ (age_days > retention_days)%Z)))
    /\ (forall retention_days containers s,
           let r := for_each containers (process_container w retention_days) s in
           let seen := enumerated w (clock_reads s) containers in
           filter is_delete (events r)
           = map delete_of (filter (eligible retention_days) seen)
           /\ filter is_skip (events r)
              = map skip_of
                    (filter (fun x => negb (eligible retention_days x)) seen))
    /\ filter is_delete (events (run w))
       = match preamble w with
         | inr (retention_days, containers) =>
             map delete_of
                 (filter (eligible retention_days) (enumerated w 0 containers))
         | inl _ => []
         end
    /\ filter is_skip (events (run w))
       = match preamble w with
         | inr (retention_days, containers) =>
             map skip_of
                 (filter (fun x => negb (eligible retention_days x))
                         (enumerated w 0 containers))
         | inl _ => []
         end.
Proof.
  intros w. split; [|split].
  - intros rd c b s t age r. split; [apply days_between_floor|].
    pose proof (should_delete_spec rd b age) as Hspec.
    subst r. fold t in Hspec. unfold process_blob. cbn.
    unfold bind, try_except, call. cbn. fold t. fold age.
    destruct (should_delete rd b age) eqn:Hd; cbn.
    + assert (Hyes : blob_tier b = Some "Archive"%string /\ (age > rd)%Z)
        by (apply Hspec; reflexivity).
      destruct (delete_blob w c (name b)) as [[]|[]]; cbn;
        (split; [intros c' n'; split;
                 [intros H; repeat (destruct H as [H|H]; try discriminate);
                  try contradiction; injection H as <- <-; tauto
                 |intros (-> & -> & _); auto 10]
                |split; [intros H; repeat (destruct H as [H|H]; try discriminate);
                         contradiction
                        |tauto]]).
    + assert (Hno : ~ (blob_tier b = Some "Archive"%string /\ (age > rd)%Z))
        by (intros H; apply Hspec in H; discriminate).
      split.
      * intros c' n'. split.
        -- intros H; repeat (destruct H as [H|H]; try discriminate); contradiction.
        -- intros (_ & _ & H); tauto.
      * split; [intros _; exact Hno|intros _; auto 10].
  - intros rd cs s r seen. subst r seen.
    split; [apply container_loop_deletes|apply container_loop_skips].
  - destruct (preamble w) as [e|[rd cs]] eqn:Hp.
    + destruct (run_stops_early w e Hp) as (_ & _ & Hd & Hs). now rewrite Hd, Hs.
    + destruct (run_reaches_loop w rd cs Hp) as (_ & _ & Hd & Hs).
      rewrite Hd, Hs, container_loop_deletes, container_loop_skips. auto.
Qed.

(** C6.  When the delete of an eligible blob raises [ResourceNotFoundError]
    the job logs a warning, adds one to the error counter, leaves the
    deleted counter as it was, and goes on with the next blob; nothing is
    raised. *)
Theorem not_found_on_delete_is_counted_and_absorbed :
  forall (w : World) retention_days container blob rest s,
    let t := now w (clock_reads s) in
    let age_days := days_between t (last_modified blob) in
    let r := process_blob w retention_days container blob s in
    should_delete retention_days blob age_days = true ->
    delete_blob w container (name blob) = inl Py.ResourceNotFoundError ->
    value r = inr tt
    /\ events r
       = [Log Py.INFO (ProcessingBlob (name blob));
          Log Py.INFO (BlobTier (blob_tier blob));
          Log Py.INFO (LastModified (last_modified blob));
          DatetimeNow;
          Log Py.INFO (BlobAge age_days);
          DeleteBlob container (name blob);
          Log Py.WARNING (BlobNotFound container (name blob))]
    /\ error_count (counters (locals r)) = S (error_count (counters s))
    /\ deleted_count (counters (locals r)) = deleted_count (counters s)
    /\ processed_count (counters (locals r)) = S (processed_count (counters s))
    /\ for_each (blob :: rest) (process_blob w retention_days container) s
       = (let r' := for_each rest (process_blob w retention_days container)
                             (locals r) in
          Result (locals r') (events r ++ events r') (value r'))
    /\ value (for_each (blob :: rest) (process_blob w retention_days container) s)
       = inr tt.
Proof.
  intros w rd c b rest s t age r Hd Hdel.
  assert (Hr : r = process_blob w rd c b s) by reflexivity.
  split; [apply process_blob_returns|].
  split; [|split; [|split; [|split; [|split]]]];
    try (subst r; unfold process_blob; cbn; unfold bind, try_except, call; cbn;
         fold t; fold age; rewrite Hd; cbn; rewrite Hdel; reflexivity).
  - rewrite Hr. apply blob_loop_step.
  - apply blob_loop_returns.
Qed.

Lemma not_found_on_delete_witness :
  let s := at_loop_entry in
  let r := process_blob Demo.world 90 "archive2" Demo.gone_txt s in
  value r = inr tt
  /\ error_count (counters (locals r)) = 1
  /\ deleted_count (counters (locals r)) = 0.
Proof.
  pose proof (not_found_on_delete_is_counted_and_absorbed
                Demo.world 90 "archive2" Demo.gone_txt [Demo.fresh_txt]
                at_loop_entry eq_refl eq_refl) as H.
  cbv zeta in H. destruct H as (Hv & _ & He & Hd & _).
  cbv zeta. split; [exact Hv | split; [exact He | exact Hd]].
Defined.

(** C7.  When listing the blobs of a container raises, the job logs the
    error, adds one to the error counter and goes on with the next
    container; nothing is raised and the other counters are unchanged. *)
Theorem container_listing_failure_is_isolated :
  forall (w : World) retention_days container rest e s,
    let r := process_container w retention_days container s in
    list_blobs w container = inl e ->
    value r = inr tt
    /\ events r
       = [Log Py.INFO (ProcessingContainer container);
          GetContainerClient container;
          ListBlobs container;
          Log Py.ERROR (ContainerFailed container e)]
    /\ error_count (counters (locals r)) = S (error_count (counters s))
    /\ deleted_count (counters (locals r)) = deleted_count (counters s)
    /\ processed_count (counters (locals r)) = processed_count (counters s)
    /\ for_each (container :: rest) (process_container w retention_days) s
       = (let r' := for_each rest (process_container w retention_days)
                             (locals r) in
          Result (locals r') (events r ++ events r') (value r'))
    /\ value (for_each (container :: rest) (process_container w retention_days) s)
       = inr tt.
Proof.
  intros w rd c rest e s r H. subst r.
  pose proof (process_container_failed w rd c e s H) as Hr.
  split; [apply process_container_returns|].
  split; [|split; [|split; [|split; [|split]]]];
    try (rewrite Hr; reflexivity).
  - apply container_loop_step.
  - apply container_loop_returns.
Qed.

Lemma container_listing_failure_witness :
  let r := process_container Demo.world 90 "broken" at_loop_entry in
  value r = inr tt /\ error_count (counters (locals r)) = 1.
Proof.
  pose proof (container_listing_failure_is_isolated
                Demo.world 90 "broken" ["archive2"] Py.OtherException
                at_loop_entry eq_refl) as H.
  cbv zeta in H. destruct H as (Hv & _ & He & _).
  cbv zeta. split; [exact Hv | exact He].
Defined.

(** C8, as stated, fails: with [retention_days = 0] an Archive blob
    modified one hour before the clock reading has a positive age and is
    not eligible, and the job skips it. *)
Lemma zero_retention_keeps_archive_blob_of_one_hour :
  let blob := Demo.fresh_txt in
  let t := Demo.today in
  let r := process_blob Demo.world 0 "archive2" blob at_loop_entry in
  blob_tier blob = Some "Archive"%string
  /\ (last_modified blob < t)%Z
  /\ now Demo.world (clock_reads at_loop_entry) = t
  /\ should_delete 0 blob (days_between t (last_modified blob)) = false
  /\ filter is_delete (events r) = []
  /\ filter is_skip (events r) = [Log Py.INFO (Skipping "fresh.txt" (Some "Archive"%string) 0)].
Proof. vm_compute. repeat split; reflexivity. Qed.

(** C8, amended.  With [retention_days = 0] an Archive blob is eligible
    exactly when its age is at least one whole day, that is when the clock
    reading is at least one day after [last_modified]. *)
Theorem zero_retention_deletes_archive_blob_of_one_day :
  forall (blob : Blob) (t : Z),
    blob_tier blob = Some "Archive"%string ->
    (should_delete 0 blob (days_between t (last_modified blob)) = true
     <-> (last_modified blob + microseconds_per_day <= t)%Z).
Proof.
  intros blob t Htier. rewrite should_delete_spec.
  pose proof (days_between_floor t (last_modified blob)) as Hfloor.
  unfold microseconds_per_day in *. split.
  - intros [_ Hage]. nia.
  - intros Hday. split; [exact Htier|]. nia.
Qed.

Lemma zero_retention_witness :
  should_delete 0 Demo.x_txt (days_between Demo.today (last_modified Demo.x_txt)) = true
  <-> (last_modified Demo.x_txt + microseconds_per_day <= Demo.today)%Z.
Proof.
  apply (zero_retention_deletes_archive_blob_of_one_day Demo.x_txt Demo.today).
  reflexivity.
Defined.

(** The counters: every step of the script keeps the history consistent. *)
Lemma steps_sorted (h : list Counters) :
  steps h -> StronglySorted (fun later earlier => le_counters earlier later) h.
Proof.
  induction h as [|b h IH]; intros Hs; [constructor|].
  destruct h as [|a h].
  - constructor; constructor.
  - destruct Hs as [Hab Hs]. specialize (IH Hs).
    constructor; [exact IH|].
    assert (Hle : le_counters a b)
      by (unfold le_counters; destruct Hab as [H|[H|H]]; lia).
    constructor; [exact Hle|].
    inversion IH as [|? ? _ Hall]; subst.
    eapply Forall_impl; [|exact Hall].
    intros c Hc. unfold le_counters in *. lia.
Qed.

Lemma consistent_at_loop_entry : consistent at_loop_entry.
Proof.
  unfold consistent, at_loop_entry; cbn.
  repeat split; auto. constructor; [|constructor]. unfold deleted_within_processed; cbn; lia.
Qed.

Ltac consistent_step Hhist Hl Hs Hf :=
  unfold consistent; cbn; try rewrite Hhist; cbn;
  inversion Hf as [|? ? Hdp Hf']; subst;
  unfold deleted_within_processed, one_increment in *;
  repeat split; auto;
  repeat (constructor; cbn; try lia; auto).

Lemma process_blob_consistent w rd c b s :
  consistent s -> consistent (locals (process_blob w rd c b s)).
Proof.
  intros (Hh & Hl & Hs & Hf).
  destruct (history s) as [|c0 h] eqn:Hhist; cbn in Hh; [discriminate|].
  injection Hh as ->.
  blob_cases w c b; consistent_step Hhist Hl Hs Hf.
Qed.

Lemma process_container_consistent w rd c s :
  consistent s -> consistent (locals (process_container w rd c s)).
Proof.
  intros Hc. destruct (list_blobs w c) as [e|blobs] eqn:H.
  - rewrite (process_container_failed _ _ _ _ _ H).
    destruct Hc as (Hh & Hl & Hs & Hf).
    destruct (history s) as [|c0 h] eqn:Hhist; cbn in Hh; [discriminate|].
    injection Hh as ->. cbn [locals].
    consistent_step Hhist Hl Hs Hf.
  - rewrite (process_container_listed _ _ _ _ _ H). cbn [locals].
    clear H. revert s Hc.
    induction blobs as [|b blobs IH]; intros s Hc; [exact Hc|].
    rewrite blob_loop_step. cbn [locals].
    apply IH, process_blob_consistent, Hc.
Qed.

Lemma container_loop_consistent w rd cs : forall s,
  consistent s -> consistent (locals (for_each cs (process_container w rd) s)).
Proof.
  induction cs as [|c cs IH]; intros s Hc; [exact Hc|].
  rewrite container_loop_step. cbn [locals].
  apply IH, process_container_consistent, Hc.
Qed.

(** C10.  In any invocation the three counters start at 0, each change
    adds 1 to exactly one of them, so none ever decreases, and
    [deleted_count] never exceeds [processed_count]; the counters the summary
    reports are the last of that history.  One blob adds exactly 1 to
    [processed_count] and at most 1 to [deleted_count] and [error_count]
    together. *)
Theorem counters_start_at_zero_and_grow_by_one :
  forall (w : World),
    let s := locals (run w) in
    let h := history s in
    last h zero = zero
    /\ steps h
    /\ StronglySorted (fun later earlier => le_counters earlier later) h
    /\ Forall deleted_within_processed h
    /\ (hd_error h = Some (counters s) \/ (h = [] /\ counters s = zero))
    /\ deleted_count (counters s) <= processed_count (counters s)
    /\ (forall retention_days container blob s0,
           let a := counters s0 in
           let b := counters (locals (process_blob w retention_days container blob s0)) in
           processed_count b = S (processed_count a)
           /\ deleted_count a <= deleted_count b
           /\ error_count a <= error_count b
           /\ deleted_count b + error_count b <= S (deleted_count a + error_count a)).
Proof.
  intros w s h.
  assert (Hrun : consistent s \/ s = initial).
  { subst s. destruct (preamble w) as [e|[rd cs]] eqn:Hp.
    - right. apply (run_stops_early w e Hp).
    - left. destruct (run_reaches_loop w rd cs Hp) as (-> & _).
      apply container_loop_consistent, consistent_at_loop_entry. }
  assert (Hblob : forall retention_days container blob s0,
           let a := counters s0 in
           let b := counters (locals (process_blob w retention_days container blob s0)) in
           processed_count b = S (processed_count a)
           /\ deleted_count a <= deleted_count b
           /\ error_count a <= error_count b
           /\ deleted_count b + error_count b <= S (deleted_count a + error_count a)).
  { intros rd c b s0. blob_cases w c b; lia. }
  destruct Hrun as [(Hh & Hl & Hs & Hf)|Hinit].
  - subst h.
    split; [exact Hl|]. split; [exact Hs|].
    split; [apply steps_sorted, Hs|]. split; [exact Hf|].
    split; [left; exact Hh|]. split; [|apply Hblob].
    destruct (history s) as [|c0 t]; [discriminate|].
    injection Hh as <-. inversion Hf; assumption.
  - subst h. rewrite Hinit. cbn.
    split; [reflexivity|]. split; [exact I|].
    split; [apply SSorted_nil|]. split; [apply Forall_nil|].
    split; [right; split; reflexivity|]. split; [lia|apply Hblob].
Qed.

End BlobSpec.

Module DatabaseDemo.
Import Script DatabaseCleanup.

(** On the demo server the token fallback connects, the failed delete on
    [Logs] is rolled back, [AuditTrail] is skipped, and the invocation ends
    normally with the rows of [Logs] as they were. *)
Example database_demo_run :
  value (run Demo.world) = inr tt
  /\ db (locals (run Demo.world)) = open_database Demo.rows
  /\ total_deleted (locals (run Demo.world)) = 0%Z
  /\ filter is_authentication (events (run Demo.world))
     = [GetToken token_scope;
        Connect (conn_str "srv.database.windows.net" "appdb") None;
        Connect (conn_str_token "srv.database.windows.net" "appdb")
                (Some (1256%Z, "eyJ0"%string))]
  /\ map statement (filter is_execute (events (run Demo.world)))
     = [Some "SELECT @@VERSION"%string;
        Some (exists_query "Logs");
        Some (count_query logs_query);
        Some logs_query;
        Some (exists_query "AuditTrail")].
Proof. vm_compute. repeat split; reflexivity. Qed.

(** A server refusing both ways of authenticating ends the invocation
    with the driver's error, no statement sent. *)
Example locked_out_run :
  value (run Demo.locked_out) = inl Py.PyodbcError
  /\ filter is_execute (events (run Demo.locked_out)) = []
  /\ In (Log Py.ERROR (TokenFailed Py.PyodbcError)) (events (run Demo.locked_out)).
Proof.
  vm_compute.
  repeat split; try reflexivity; repeat (first [left; reflexivity | right]).
Qed.

End DatabaseDemo.

(* ===================================================================== *)
(** ** The database job: one statement, one table, the whole loop *)
(* ===================================================================== *)

Module DatabaseFacts.
Import Script DatabaseCleanup DatabaseAccount.



(** The three statements of an iteration are distinct texts, and the two
    iterations share none. *)
Lemma query_texts (query : string) :
  In query cleanup_queries ->
  exists table,
    extract_table_name query = inr table
    /\ exists_query table <> query
    /\ count_query query <> query
    /\ exists_query table <> count_query query
    /\ forall other table',
        In other cleanup_queries -> other <> query ->
        extract_table_name other = inr table' ->
        exists_query table' <> query /\ count_query other <> query
        /\ exists_query table' <> count_query query
        /\ count_query other <> count_query query
        /\ other <> count_query query
        /\ exists_query table' <> exists_query table.
Proof.
  assert (Hneq : forall a b : string, String.eqb a b = false -> a <> b)
    by (intros a b; apply String.eqb_neq).
  intros [<-|[<-|[]]].
  - exists "Logs"%string.
    split; [reflexivity|]. repeat split; try (apply Hneq; reflexivity).
    all: destruct H as [<-|[<-|[]]]; try congruence;
      injection H1 as <-; apply Hneq; reflexivity.
  - exists "AuditTrail"%string.
    split; [reflexivity|]. repeat split; try (apply Hneq; reflexivity).
    all: destruct H as [<-|[<-|[]]]; try congruence;
      injection H1 as <-; apply Hneq; reflexivity.
Qed.

Ltac script_unfold :=
  unfold commit, rollback, do_commit, do_rollback, end_tran, cursor_execute;
  unfold bind, try_except, eval, set_table_name, set_db, add_total_deleted,
    log, emit, get, modify, call, raise, ret;
  cbn -[exists_query count_query Py.int].

(** Splits on every answer an iteration of the table loop depends on. *)
Ltac query_cases w :=
  repeat match goal with
  | |- context [execute w ?q ?p ?st] =>
      let st' := fresh "store" in
      let e := fresh "e" in
      let a := fresh "a" in
      destruct (execute w q p st) as [st' [e|a]] eqn:?;
      cbn -[exists_query count_query Py.int]
  | |- context [is_zero ?v] =>
      destruct (is_zero v) eqn:?; cbn -[exists_query count_query Py.int]
  | |- context [Py.int ?x] =>
      destruct (Py.int x) as [?e|?days] eqn:?;
      cbn -[exists_query count_query Py.int]
  | |- context [end_transaction w ?how ?state] =>
      let e := fresh "e" in
      let d := fresh "d" in
      destruct (end_transaction w how state) as [[e d]|] eqn:?;
      cbn -[exists_query count_query Py.int]
  end.

Ltac iteration w H :=
  unfold process_query; rewrite H; script_unfold; query_cases w.

(** An iteration raises only what its rollback raises. *)
Lemma process_query_raises w rd query table s e :
  extract_table_name query = inr table ->
  value (process_query w rd query s) = inl e ->
  rollback_raises w e.
Proof.
  intros H. iteration w H; intros Hv; try discriminate;
    injection Hv as <-; unfold rollback_raises; eauto.
Qed.

Lemma process_query_no_authentication w rd query table s :
  extract_table_name query = inr table ->
  filter is_authentication (events (process_query w rd query s)) = [].
Proof. intros H. iteration w H; reflexivity. Qed.

(** An iteration begins with the catalog lookup for its table. *)
Lemma process_query_begins w rd query table s :
  extract_table_name query = inr table ->
  exists tail,
    events (process_query w rd query s)
    = Execute (exists_query table) None
              (snd (execute w (exists_query table) None (pending (db s))))
      :: tail.
Proof.
  intros H. unfold process_query; rewrite H; script_unfold.
  destruct (execute w (exists_query table) None (pending (db s)))
    as [st [e|a]] eqn:Hex; cbn -[exists_query count_query Py.int];
    query_cases w; eexists; reflexivity.
Qed.

(** An iteration sends no statement but its own three. *)
Lemma process_query_sends w rd query table s :
  extract_table_name query = inr table ->
  Forall (sent_for query table) (events (process_query w rd query s)).
Proof.
  intros H. iteration w H;
    repeat (constructor; cbn -[exists_query count_query]; auto).
Qed.

(** The table loop over the two fixed statements. *)
Lemma table_loop_step w rd query rest s :
  value (process_query w rd query s) = inr tt ->
  for_each (query :: rest) (process_query w rd) s =
  let r := process_query w rd query s in
  let r' := for_each rest (process_query w rd) (locals r) in
  Result (locals r') (events r ++ events r') (value r').
Proof. apply ScriptFacts.for_each_continues. Qed.

(** Each iteration begins with the catalog lookup of its table. *)
Lemma table_loop_begins w rd next rest s :
  In next cleanup_queries ->
  exists table answer tail,
    extract_table_name next = inr table
    /\ events (for_each (next :: rest) (process_query w rd) s)
       = Execute (exists_query table) None answer :: tail.
Proof.
  intros Hnext. destruct (query_texts next Hnext) as (table & Ht & _).
  destruct (process_query_begins w rd next table s Ht) as (tail & Hb).
  destruct (ScriptFacts.for_each_begins next rest (process_query w rd) s)
    as (more & Hev).
  exists table. eexists. eexists. split; [exact Ht|].
  rewrite Hev, Hb. reflexivity.
Qed.

(** The table loop raises only what a rollback raises. *)
Lemma table_loop_raises w rd s e :
  value (for_each cleanup_queries (process_query w rd) s) = inl e ->
  rollback_raises w e.
Proof.
  apply (ScriptFacts.for_each_raises (rollback_raises w)).
  intros q s' e' Hin. destruct (query_texts q Hin) as (table & Ht & _).
  apply (process_query_raises _ _ _ _ _ _ Ht).
Qed.

Lemma table_loop_no_authentication w rd s :
  filter is_authentication (events (for_each cleanup_queries (process_query w rd) s)) = [].
Proof.
  apply ScriptFacts.for_each_filter_nil. intros q s' Hin.
  destruct (query_texts q Hin) as (table & Ht & _).
  apply (process_query_no_authentication _ _ _ _ _ Ht).
Qed.

End DatabaseFacts.

(* ===================================================================== *)
(** ** The database job: the whole invocation *)
(* ===================================================================== *)

Module DatabaseRun.
Import Script DatabaseCleanup DatabaseFacts.

Lemma append_assoc (a b c : string) : ((a ++ b) ++ c = a ++ (b ++ c))%string.
Proof. induction a as [|x a IH]; cbn; [reflexivity|now rewrite IH]. Qed.

Ltac block_unfold :=
  unfold with_connection, with_cursor, with_cursor_block;
  unfold do_commit, do_rollback, end_tran, cursor_execute;
  unfold bind, try_except, set_db, log, emit, get, modify, call, raise, ret;
  cbn -[for_each cleanup_queries].

(** Splits on what ending a transaction answers. *)
Ltac endings w :=
  repeat match goal with
  | |- context [end_transaction w ?how ?state] =>
      let e := fresh "e" in
      let d := fresh "d" in
      destruct (end_transaction w how state) as [[e d]|] eqn:?;
      cbn -[for_each cleanup_queries]
  end.

(** The block under [with conn:]: it sends no authentication event and
    its first statement is the version probe. *)
Lemma block_summary w rd s :
  let r := with_connection w (with_cursor w (with_cursor_block w rd)) s in
  let probe := snd (execute w "SELECT @@VERSION" None (pending (db s))) in
  filter is_authentication (events r) = []
  /\ hd_error (filter is_execute (events r))
     = Some (Execute "SELECT @@VERSION" None probe).
Proof.
  block_unfold.
  destruct (execute w "SELECT @@VERSION" None (pending (db s)))
    as [st [e|a]] eqn:Hprobe; cbn -[for_each cleanup_queries].
  - endings w; split; reflexivity.
  - match goal with
    | |- context [for_each cleanup_queries ?body ?s0] =>
        pose proof (table_loop_no_authentication w rd s0) as Hq;
        destruct (for_each cleanup_queries body s0) as [s1 ev1 [e1|[]]]
    end; cbn in Hq; cbn -[for_each cleanup_queries]; endings w;
      rewrite ?filter_app, ?Hq; cbn; split; reflexivity.
Qed.

(** Without a server or a database name the invocation raises
    [ValueError] after log lines only, the connection untouched. *)
Lemma run_without_configuration w :
  Py.truthy (SQL_SERVER w) && Py.truthy (SQL_DATABASE w) = false ->
  value (run w) = inl Py.ValueError
  /\ forallb is_log (events (run w)) = true
  /\ locals (run w) = initial w.
Proof.
  intros H. unfold run, main, cleanup.
  destruct (Py.truthy (SQL_SERVER w)), (Py.truthy (SQL_DATABASE w));
    try discriminate; cbn; auto.
Qed.

End DatabaseRun.

(* ===================================================================== *)
(** ** The database job: authentication, rollback, missing tables *)
(* ===================================================================== *)

Module DatabaseSpec.
Import Script DatabaseCleanup DatabaseFacts DatabaseRun.

(** Unfolds the invocation down to the block under [with conn:], which
    [block_summary] describes, and evaluates what the answers known so far
    decide. *)
Ltac start_run :=
  unfold run, main, cleanup;
  unfold bind, try_except, open_connection, log, emit, call, raise, ret.

Ltac step :=
  cbn -[conn_str conn_str_token token_scope with_connection].

Ltac through_block w :=
  let Hquiet := fresh "Hquiet" in
  let Hprobe := fresh "Hprobe" in
  pose proof (block_summary w (Py.get_default (RETENTION_DAYS w) "90") (initial w))
    as (Hquiet & Hprobe);
  destruct (with_connection _ _ (initial w)) as [?s ?ev [[]|?u]];
  cbn -[conn_str conn_str_token token_scope] in *;
  rewrite ?filter_app, ?Hquiet; cbn -[conn_str conn_str_token token_scope];
  rewrite ?filter_app; cbn -[conn_str conn_str_token token_scope];
  (split; [reflexivity|]);
  match goal with
  | |- context [filter is_execute ?l] =>
      destruct (filter is_execute l); cbn in *; congruence
  end.

(** C2, as stated, fails: the explicit token is acquired before the first
    connection attempt, also when that attempt succeeds and the token is
    never used. *)
Lemma token_is_acquired_before_first_attempt :
  connect Demo.msi_accepted
          (conn_str "srv.database.windows.net" "appdb") None = inr tt
  /\ filter is_authentication (events (run Demo.msi_accepted))
     = [GetToken token_scope;
        Connect (conn_str "srv.database.windows.net" "appdb") None]
  /\ value (run Demo.no_token) = inl Py.OtherException
  /\ filter is_authentication (events (run Demo.no_token))
     = [GetToken token_scope].
Proof. vm_compute. repeat split; reflexivity. Qed.

(** C2, amended.  With server and database configured, the job first
    acquires the explicit access token, and raises if that fails.  It then
    attempts a connection with the identity embedded in the connection
    string and no attribute.  Only when that attempt fails with a driver
    error does it connect again, with the connection string without the
    embedded identity and the token acquired at the start as attribute 1256.
    If the second attempt fails too the job raises, having sent no
    statement.  Once connected, the first statement is the version probe. *)
Theorem authentication_token_first_then_two_attempts :
  forall (w : World),
    Py.truthy (SQL_SERVER w) = true ->
    Py.truthy (SQL_DATABASE w) = true ->
    let server := Py.get_default (SQL_SERVER w) "" in
    let database := Py.get_default (SQL_DATABASE w) "" in
    let first := Connect (conn_str server database) None in
    let probe := Execute "SELECT @@VERSION" None
                         (snd (execute w "SELECT @@VERSION" None (server_store w))) in
    (exists head tail,
        conn_str server database
        = (head ++ "Authentication=ActiveDirectoryMSI;" ++ tail)%string
        /\ conn_str_token server database = (head ++ tail)%string)
    /\ match get_token w token_scope with
       | inl e =>
           filter is_authentication (events (run w)) = [GetToken token_scope]
           /\ value (run w) = inl e
           /\ filter is_execute (events (run w)) = []
       | inr token =>
           let attrs := Some (access_token_attribute, token) in
           let second := Connect (conn_str_token server database) attrs in
           match connect w (conn_str server database) None with
           | inr _ =>
               filter is_authentication (events (run w))
               = [GetToken token_scope; first]
               /\ hd_error (filter is_execute (events (run w))) = Some probe
           | inl Py.PyodbcError =>
               filter is_authentication (events (run w))
               = [GetToken token_scope; first; second]
               /\ match connect w (conn_str_token server database) attrs with
                  | inr _ =>
                      hd_error (filter is_execute (events (run w))) = Some probe
                  | inl e =>
                      value (run w) = inl e
                      /\ filter is_execute (events (run w)) = []
                  end
           | inl e =>
               filter is_authentication (events (run w))
               = [GetToken token_scope; first]
               /\ value (run w) = inl e
               /\ filter is_execute (events (run w)) = []
           end
       end.
Proof.
  intros w Hserver Hdatabase server database first probe.
  split.
  { exists ("Driver={ODBC Driver 17 for SQL Server};"
            ++ "Server=tcp:" ++ server ++ ",1433;"
            ++ "Database=" ++ database ++ ";")%string.
    exists ("Encrypt=yes;" ++ "TrustServerCertificate=no;"
            ++ "Connection Timeout=30;")%string.
    unfold conn_str, conn_str_token.
    rewrite !append_assoc. split; reflexivity. }
  subst server database first probe. cbv zeta.
  destruct (get_token w token_scope) as [e|token] eqn:Htoken.
  { start_run. rewrite Hserver, Hdatabase. step. rewrite Htoken.
    destruct e; cbn; repeat split; reflexivity. }
  destruct (connect w (conn_str _ _) None) as [e|[]] eqn:Hfirst.
  - destruct e;
      try (start_run; rewrite Hserver, Hdatabase; step; rewrite Htoken; step;
           rewrite Hfirst; cbn; repeat split; reflexivity).
    destruct (connect w (conn_str_token _ _) _) as [e|[]] eqn:Hsecond.
    + start_run. rewrite Hserver, Hdatabase. step. rewrite Htoken. step.
      rewrite Hfirst. step. rewrite Hsecond.
      destruct e; cbn; repeat split; reflexivity.
    + start_run. rewrite Hserver, Hdatabase. step. rewrite Htoken. step.
      rewrite Hfirst. step. rewrite Hsecond. step.
      through_block w.
  - start_run. rewrite Hserver, Hdatabase. step. rewrite Htoken. step.
    rewrite Hfirst. step.
    through_block w.
Qed.

Lemma authentication_witness :
  filter is_authentication (events (run Demo.world))
  = [GetToken token_scope;
     Connect (conn_str "srv.database.windows.net" "appdb") None;
     Connect (conn_str_token "srv.database.windows.net" "appdb")
             (Some (access_token_attribute, "eyJ0"%string))].
Proof.
  pose proof (authentication_token_first_then_two_attempts
                Demo.world eq_refl eq_refl) as H.
  cbv zeta in H. destruct H as [_ H].
  vm_compute in H. destruct H as [H _].
  vm_compute. exact H.
Defined.

(** Decides which event of an explicit trace a given statement is. *)
Ltac find_event Hin :=
  cbn -[exists_query count_query] in Hin;
  repeat match type of Hin with
  | _ \/ _ => destruct Hin as [Hin|Hin]
  | False => contradiction
  | _ = _ =>
      first [discriminate Hin | injection Hin; intros; subst; try congruence]
  end.






(** The events of the table loop are those of the [Logs] iteration
    followed, when that one returns, by those of the [AuditTrail]
    iteration. *)
Lemma table_loop_events w rd s :
  let r1 := process_query w rd logs_query s in
  let r2 := process_query w rd audit_trail_query (locals r1) in
  exists tail,
    events (for_each cleanup_queries (process_query w rd) s)
    = (events r1 ++ tail)%list
    /\ (tail = events r2 \/ tail = []).
Proof.
  unfold cleanup_queries. cbn [for_each]. unfold bind, ret.
  destruct (process_query w rd logs_query s) as [s1 ev1 [e|[]]]; cbn [locals events].
  - exists []. rewrite app_nil_r. auto.
  - destruct (process_query w rd audit_trail_query s1) as [s2 ev2 [e|[]]];
      cbn [locals events]; exists ev2; rewrite ?app_nil_r; auto.
Qed.

(** The iteration of a table whose lookup answered zero is the lookup and
    the warning. *)
Lemma lookup_zero_ends_iteration w rd query table s found :
  In query cleanup_queries ->
  extract_table_name query = inr table ->
  is_zero (fetchone0 found) = true ->
  In (Execute (exists_query table) None (inr found))
     (events (process_query w rd query s)) ->
  events (process_query w rd query s)
  = [Execute (exists_query table) None (inr found);
     Log Py.WARNING (TableMissing table)].
Proof.
  intros Hq Ht Hzero.
  destruct (query_texts query Hq) as (table0 & Ht0 & Hne1 & Hne2 & Hne3 & _).
  assert (table0 = table) by congruence. subst table0.
  assert (Hne1' : query <> exists_query table) by congruence.
  assert (Hne3' : count_query query <> exists_query table) by congruence.
  iteration w Ht; intros Hin; find_event Hin; reflexivity.
Qed.

(** The iteration of the other table sends nothing for this one. *)
Lemma other_iteration_sends_nothing w rd query table other s sql param answer :
  In query cleanup_queries ->
  extract_table_name query = inr table ->
  In other cleanup_queries ->
  other <> query ->
  In (Execute sql param answer) (events (process_query w rd other s)) ->
  sql <> exists_query table /\ sql <> query /\ sql <> count_query query.
Proof.
  intros Hq Ht Ho Hdiff Hin.
  destruct (query_texts other Ho) as (table' & Ht' & _ & _ & _ & Hcross').
  destruct (query_texts query Hq) as (table0 & Ht0 & _ & _ & _ & Hcross).
  assert (table0 = table) by congruence. subst table0.
  destruct (Hcross other table' Ho Hdiff Ht') as (H1 & H2 & H3 & H4 & H5 & H6).
  assert (Hdiff' : query <> other) by congruence.
  destruct (Hcross' query table Hq Hdiff' Ht) as (G1 & G2 & G3 & G4 & G5 & G6).
  pose proof (process_query_sends w rd other table' s Ht') as Hsent.
  rewrite Forall_forall in Hsent. specialize (Hsent _ Hin). unfold sent_for in Hsent.
  destruct Hsent as [ -> | [ -> | -> ] ]; repeat split; congruence.
Qed.

(** In the whole table loop, a table whose lookup answered zero gets no
    count query and no delete. *)
Lemma absent_table_gets_no_statement w rd query table s found :
  In query cleanup_queries ->
  extract_table_name query = inr table ->
  is_zero (fetchone0 found) = true ->
  In (Execute (exists_query table) None (inr found))
     (events (for_each cleanup_queries (process_query w rd) s)) ->
  forall param answer,
    ~ In (Execute query param answer)
         (events (for_each cleanup_queries (process_query w rd) s))
    /\ ~ In (Execute (count_query query) param answer)
            (events (for_each cleanup_queries (process_query w rd) s)).
Proof.
  intros Hq Ht Hzero.
  destruct (table_loop_events w rd s) as (tail & Hev & Htail). cbv zeta in Htail.
  rewrite Hev. clear Hev.
  set (r1 := process_query w rd logs_query s) in *.
  set (r2 := process_query w rd audit_trail_query (locals r1)) in *.
  assert (Hsub : forall x, In x tail -> In x (events r2))
    by (destruct Htail as [->| ->]; [auto|intros x []]).
  assert (Hl : In logs_query cleanup_queries) by (left; reflexivity).
  assert (Ha : In audit_trail_query cleanup_queries) by (right; left; reflexivity).
  assert (Hla : logs_query <> audit_trail_query)
    by (apply String.eqb_neq; reflexivity).
  assert (Hal : audit_trail_query <> logs_query) by congruence.
  destruct (query_texts query Hq) as (table0 & Ht0 & Hne1 & Hne2 & Hne3 & _).
  assert (table0 = table) by congruence. subst table0.
  intros Hin param answer. apply in_app_or in Hin.
  assert (Hown : forall s' p a,
             In (Execute (exists_query table) None (inr found))
                (events (process_query w rd query s')) ->
             ~ In (Execute query p a) (events (process_query w rd query s'))
             /\ ~ In (Execute (count_query query) p a)
                     (events (process_query w rd query s'))).
  { intros s' p a H.
    rewrite (lookup_zero_ends_iteration w rd query table s' found Hq Ht Hzero H).
    split; intros Hx; find_event Hx. }
  assert (Hother : forall other s' p a,
             In other cleanup_queries -> other <> query ->
             ~ In (Execute (exists_query table) None (inr found))
                  (events (process_query w rd other s'))
             /\ ~ In (Execute query p a) (events (process_query w rd other s'))
             /\ ~ In (Execute (count_query query) p a)
                     (events (process_query w rd other s'))).
  { intros other s' p a Ho Hd. repeat split; intros Hx;
      destruct (other_iteration_sends_nothing w rd query table other s' _ _ _
                  Hq Ht Ho Hd Hx) as (X1 & X2 & X3); congruence. }
  destruct Hq as [<-|[<-|[]]].
  - destruct (Hother audit_trail_query (locals r1) param answer Ha Hal)
      as (M0 & M1 & M2). fold r2 in M0, M1, M2.
    destruct Hin as [Hin|Hin]; [|apply Hsub in Hin; tauto].
    destruct (Hown s param answer Hin) as [N1 N2]. fold r1 in N1, N2.
    split; intros Hx; apply in_app_or in Hx;
      destruct Hx as [Hx|Hx]; try tauto; apply Hsub in Hx; tauto.
  - destruct (Hother logs_query s param answer Hl Hla) as (M0 & M1 & M2).
    fold r1 in M0, M1, M2.
    destruct Hin as [Hin|Hin]; [tauto|]. apply Hsub in Hin.
    destruct (Hown (locals r1) param answer Hin) as [N1 N2]. fold r2 in N1, N2.
    split; intros Hx; apply in_app_or in Hx;
      destruct Hx as [Hx|Hx]; try tauto; apply Hsub in Hx; tauto.
Qed.

(** C4.  For each of the two fixed tables, when the catalog lookup answers
    that the table does not exist, the iteration consists of that lookup
    and a warning: no count query and no delete is sent for the table, in
    that iteration or in the rest of the table loop, no error is logged,
    nothing is raised or rolled back, and the loop goes on with the next
    statement. *)
Theorem absent_table_is_skipped_with_a_warning :
  forall (w : World) retention_days query table s found,
    In query cleanup_queries ->
    extract_table_name query = inr table ->
    let r := process_query w retention_days query s in
    snd (execute w (exists_query table) None (pending (db s))) = inr found ->
    is_zero (fetchone0 found) = true ->
    events r = [Execute (exists_query table) None (inr found);
                Log Py.WARNING (TableMissing table)]
    /\ (forall param answer,
           ~ In (Execute query param answer) (events r)
           /\ ~ In (Execute (count_query query) param answer) (events r))
    /\ (forall m, ~ In (Log Py.ERROR m) (events r))
    /\ ~ In Rollback (events r)
    /\ value r = inr tt
    /\ committed (db (locals r)) = committed (db s)
    /\ total_deleted (locals r) = total_deleted s
    /\ (forall rest,
           for_each (query :: rest) (process_query w retention_days) s
           = (let r' := for_each rest (process_query w retention_days)
                                 (locals r) in
              Result (locals r') (events r ++ events r') (value r')))
    /\ (forall next rest,
           In next cleanup_queries ->
           exists table' answer tail,
             extract_table_name next = inr table'
             /\ events (for_each (next :: rest) (process_query w retention_days)
                                 (locals r))
                = Execute (exists_query table') None answer :: tail)
    /\ (forall s0 param answer,
           let loop := for_each cleanup_queries
                                (process_query w retention_days) s0 in
           In (Execute (exists_query table) None (inr found)) (events loop) ->
           ~ In (Execute query param answer) (events loop)
           /\ ~ In (Execute (count_query query) param answer) (events loop)).
Proof.
  intros w rd query table s found Hq Ht r Hfound Hzero.
  destruct (query_texts query Hq) as (table0 & Ht0 & Hne1 & Hne2 & Hne3 & _).
  assert (table0 = table) by congruence. subst table0.
  assert (Hev : events r = [Execute (exists_query table) None (inr found);
                            Log Py.WARNING (TableMissing table)]
                /\ value r = inr tt
                /\ committed (db (locals r)) = committed (db s)
                /\ total_deleted (locals r) = total_deleted s).
  { subst r. unfold process_query. rewrite Ht. script_unfold.
    destruct (execute w (exists_query table) None (pending (db s)))
      as [st ans]. cbn -[exists_query] in Hfound. subst ans.
    cbn -[exists_query count_query Py.int]. rewrite Hzero.
    repeat split; reflexivity. }
  destruct Hev as (Hev & Hv & Hc & Htotal).
  split; [exact Hev|].
  split; [|split; [|split; [|split; [|split; [|split; [|split; [|split]]]]]]];
    try assumption.
  - intros param answer. split; intros Hin; rewrite Hev in Hin; find_event Hin.
  - intros m Hin. rewrite Hev in Hin. find_event Hin.
  - intros Hin. rewrite Hev in Hin. find_event Hin.
  - intros rest. apply table_loop_step. exact Hv.
  - intros next rest Hnext. apply table_loop_begins, Hnext.
  - intros s0 param answer loop Hin.
    apply (absent_table_gets_no_statement w rd query table s0 found Hq Ht Hzero Hin).
Qed.

Lemma absent_table_witness :
  let r := process_query Demo.world "90" audit_trail_query (initial Demo.world) in
  events r = [Execute (exists_query "AuditTrail") None (Demo.scalar 0);
              Log Py.WARNING (TableMissing "AuditTrail")]
  /\ value r = inr tt.
Proof.
  assert (Hq : In audit_trail_query cleanup_queries)
    by (right; left; reflexivity).
  pose proof (absent_table_is_skipped_with_a_warning
                Demo.world "90" audit_trail_query "AuditTrail"
                (initial Demo.world)
                {| fetchone0 := VInt 0; rowcount := (-1)%Z |}
                Hq eq_refl eq_refl eq_refl) as H.
  cbv zeta in H. destruct H as (Hev & _ & _ & _ & Hv & _).
  cbv zeta. split; [exact Hev | exact Hv].
Defined.

(** C9.  For each of the two fixed delete statements the table name of the
    catalog lookup is the text between the statement's [FROM] and its
    [WHERE], stripped of surrounding whitespace; the two names are [Logs]
    and [AuditTrail].  Each keyword occurs once in each statement. *)
Theorem table_name_is_text_between_from_and_where :
  map extract_table_name cleanup_queries
  = [inr "Logs"%string; inr "AuditTrail"%string]
  /\ Forall
       (fun query =>
          exists before between after,
            query = (before ++ "FROM" ++ between ++ "WHERE" ++ after)%string
            /\ Py.split "FROM" query
               = inr [before; (between ++ "WHERE" ++ after)%string]
            /\ Py.split "WHERE" (between ++ "WHERE" ++ after)
               = inr [between; after]
            /\ extract_table_name query = inr (Py.strip between)
            /\ exists_query (Py.strip between)
               = ("SELECT COUNT(*) FROM INFORMATION_SCHEMA.TABLES WHERE TABLE_NAME = '"
                    ++ Py.strip between ++ "'")%string)
       cleanup_queries.
Proof.
  split; [reflexivity|].
  constructor; [|constructor; [|constructor]].
  - exists (nl ++ indent ++ "DELETE ")%string.
    exists (" Logs " ++ nl ++ indent)%string.
    exists (" CreatedDate < DATEADD(day, ?, GETDATE())" ++ nl ++ indent)%string.
    repeat split; reflexivity.
  - exists (nl ++ indent ++ "DELETE ")%string.
    exists (" AuditTrail " ++ nl ++ indent)%string.
    exists (" Timestamp < DATEADD(day, ?, GETDATE())" ++ nl ++ indent)%string.
    repeat split; reflexivity.
Qed.

End DatabaseSpec.

(* ===================================================================== *)
(** ** Both jobs: missing configuration *)
(* ===================================================================== *)

Module ConfigurationSpec.
Import Script.

(** C5.  When [STORAGE_ACCOUNT_NAME] is not set the blob job, and when
    [SQL_SERVER] or [SQL_DATABASE] is not set the database job, raises
    [ValueError], the configuration error, having issued log lines only: no
    credential, connection, listing, statement or delete call comes before
    it, and no counter or connection state has changed. *)
Theorem missing_configuration_raises_before_any_call :
  (forall w : BlobCleanup.World,
      BlobCleanup.STORAGE_ACCOUNT_NAME w = None ->
      value (BlobCleanup.run w) = inl Py.ValueError
      /\ forallb BlobCleanup.is_log (events (BlobCleanup.run w)) = true
      /\ locals (BlobCleanup.run w) = BlobCleanup.initial)
  /\ (forall w : DatabaseCleanup.World,
         DatabaseCleanup.SQL_SERVER w = None
         \/ DatabaseCleanup.SQL_DATABASE w = None ->
         value (DatabaseCleanup.run w) = inl Py.ValueError
         /\ forallb DatabaseCleanup.is_log (events (DatabaseCleanup.run w)) = true
         /\ locals (DatabaseCleanup.run w) = DatabaseCleanup.initial w).
Proof.
  split.
  - intros w H. apply BlobRun.run_without_account. now rewrite H.
  - intros w H. apply DatabaseRun.run_without_configuration.
    destruct H as [H|H]; rewrite H; cbn; [reflexivity|apply andb_false_r].
Qed.

Lemma missing_configuration_witness :
  value (BlobCleanup.run BlobCleanup.Demo.unconfigured) = inl Py.ValueError
  /\ value (DatabaseCleanup.run DatabaseCleanup.Demo.unconfigured)
     = inl Py.ValueError.
Proof.
  destruct missing_configuration_raises_before_any_call as [Hblob Hdb].
  split.
  - apply (Hblob BlobCleanup.Demo.unconfigured). reflexivity.
  - apply (Hdb DatabaseCleanup.Demo.unconfigured). left. reflexivity.
Defined.

End ConfigurationSpec.

(* ===================================================================== *)
(** ** The blob job: outcomes, accounts and edge cases *)
(* ===================================================================== *)

Module BlobMore.
Import Script BlobCleanup BlobAccount BlobFacts BlobRun.

Lemma int_raises_value_error (s : string) (e : Py.exn) :
  Py.int s = inl e -> e = Py.ValueError.
Proof.
  unfold Py.int. destruct (Py.int_value s); congruence.
Qed.

(** The whole trace of an invocation that reaches the container loop. *)
Lemma run_trace_when_reached w rd cs :
  preamble w = inr (rd, cs) ->
  let r := for_each cs (process_container w rd) at_loop_entry in
  exists sku,
    get_account_information w = inr sku
    /\ events (run w)
       = (opening w rd sku cs ++ events r
            ++ summary_lines (List.length cs) (counters (locals r)))%list
    /\ locals (run w) = locals r.
Proof.
  intros H. revert H. unfold opening. preamble_cases w; cbn; try discriminate;
    intros H; injection H as -> ->;
    unfold bind, try_except, call, eval;
    cbn -[for_each String.append];
    change {| counters := zero; clock_reads := 0; history := [zero] |}
      with at_loop_entry;
    pose proof (container_loop_returns w rd cs at_loop_entry) as Hv;
    destruct (for_each cs (process_container w rd) at_loop_entry)
      as [s1 ev1 v1]; cbn in Hv; subst v1;
    cbn -[String.append];
    eexists; (split; [reflexivity|split; reflexivity]).
Qed.

Lemma plus_zero_left (c : Counters) : plus zero c = c.
Proof. destruct c; reflexivity. Qed.

Lemma plus_assoc (a b c : Counters) : plus (plus a b) c = plus a (plus b c).
Proof. unfold plus; cbn; f_equal; lia. Qed.

Lemma tally_seen_app w rd l1 l2 f1 f2 :
  tally_seen w rd (l1 ++ l2) (f1 + f2)
  = plus (tally_seen w rd l1 f1) (tally_seen w rd l2 f2).
Proof.
  unfold tally_seen, plus; cbn. rewrite !filter_app, !length_app.
  f_equal; lia.
Qed.

Lemma process_blob_tally w rd c b s :
  counters (locals (process_blob w rd c b s))
  = plus (counters s) (tally_seen w rd [(c, b, now w (clock_reads s))] 0).
Proof.
  unfold tally_seen, deleted_ok, delete_failed, delete_succeeds, eligible, plus.
  cbn [filter].
  unfold process_blob; cbn; unfold bind, try_except, call; cbn.
  destruct (should_delete rd b _) eqn:Hd; cbn;
    [destruct (delete_blob w c (name b)) as [[]|[]]; cbn|];
    f_equal; lia.
Qed.

Lemma blob_loop_tally w rd c blobs : forall s,
  counters (locals (for_each blobs (process_blob w rd c) s))
  = plus (counters s) (tally_seen w rd (stamp w (clock_reads s) c blobs) 0).
Proof.
  induction blobs as [|b blobs IH]; intros s.
  - cbn. unfold plus, tally_seen; cbn. destruct (counters s); cbn. f_equal; lia.
  - rewrite blob_loop_step. cbn [locals stamp].
    rewrite IH, process_blob_tally, process_blob_clock, plus_assoc.
    f_equal.
    change ((c, b, now w (clock_reads s)) :: stamp w (S (clock_reads s)) c blobs)
      with ([(c, b, now w (clock_reads s))] ++ stamp w (S (clock_reads s)) c blobs)%list.
    now rewrite <- tally_seen_app.
Qed.

Lemma container_loop_tally w rd cs : forall s,
  counters (locals (for_each cs (process_container w rd) s))
  = plus (counters s) (tally w rd (clock_reads s) cs).
Proof.
  induction cs as [|c cs IH]; intros s.
  - cbn. unfold plus, tally, tally_seen; cbn. destruct (counters s); cbn.
    f_equal; lia.
  - rewrite container_loop_step. cbn [locals].
    rewrite IH. unfold tally. cbn [enumerated filter]. unfold listing_fails at 2.
    destruct (list_blobs w c) as [e|blobs] eqn:H.
    + rewrite (process_container_failed _ _ _ _ _ H). cbn [locals counters clock_reads].
      unfold plus, tally_seen; cbn. f_equal; lia.
    + rewrite (process_container_listed _ _ _ _ _ H). cbn [locals].
      rewrite blob_loop_tally, blob_loop_clock, plus_assoc. f_equal.
      rewrite <- tally_seen_app. reflexivity.
Qed.

(** X1.  The invocation returns normally exactly when the retention
    setting parses, the account name is set, the account probe answers and
    the containers can be listed: no failure of a blob listing or of a
    delete makes it raise. *)
Theorem blob_job_raises_only_before_the_loop :
  forall (w : World),
    value (run w) = inr tt <->
    (exists rd, Py.int (Py.get_default (RETENTION_DAYS w) "90") = inr rd)
    /\ Py.truthy (STORAGE_ACCOUNT_NAME w) = true
    /\ (exists sku, get_account_information w = inr sku)
    /\ (exists cs, list_containers w = inr cs).
Proof.
  intros w. destruct (preamble w) as [e|[rd cs]] eqn:Hp.
  - destruct (run_stops_early w e Hp) as (Hv & _). rewrite Hv.
    split; [discriminate|].
    intros ((rd & Hint) & Hacc & (sku & Hinfo) & (cs & Hlist)).
    unfold preamble in Hp. rewrite Hint, Hacc, Hinfo, Hlist in Hp. discriminate.
  - destruct (run_reaches_loop w rd cs Hp) as (_ & Hv & _).
    split; [intros _|intros _; exact Hv].
    unfold preamble in Hp.
    destruct (Py.int _) as [|rd']; [discriminate|].
    destruct (Py.truthy _); [|discriminate].
    destruct (get_account_information w) as [|sku]; [discriminate|].
    destruct (list_containers w) as [|cs']; [discriminate|].
    repeat split; eauto.
Qed.

(** X2.  The counters of a run are a tally of what it went through:
    [processed_count] is the number of blobs enumerated, [deleted_count] the
    number of eligible blobs whose delete returned, [error_count] the number
    of eligible blobs whose delete raised plus the number of containers
    whose listing raised.  Every processed blob is deleted, failed or
    skipped. *)
Theorem counters_tally_the_run :
  forall (w : World),
    counters (locals (run w))
    = match preamble w with
      | inr (retention_days, containers) => tally w retention_days 0 containers
      | inl _ => zero
      end
    /\ (forall retention_days containers s,
           counters (locals (for_each containers
                                      (process_container w retention_days) s))
           = plus (counters s)
                  (tally w retention_days (clock_reads s) containers))
    /\ (forall retention_days k containers,
           let seen := enumerated w k containers in
           let c := tally w retention_days k containers in
           processed_count c
           = deleted_count c
             + List.length (filter (delete_failed w retention_days) seen)
             + List.length (filter (fun x => negb (eligible retention_days x)) seen)).
Proof.
  intros w. split; [|split].
  - destruct (preamble w) as [e|[rd cs]] eqn:Hp.
    + destruct (run_stops_early w e Hp) as (_ & -> & _). reflexivity.
    + destruct (run_reaches_loop w rd cs Hp) as (-> & _).
      rewrite container_loop_tally. apply plus_zero_left.
  - intros rd cs s. apply container_loop_tally.
  - intros rd k cs seen c. subst c. unfold tally, tally_seen. cbn. fold seen.
    clear. induction seen as [|x seen IH]; [reflexivity|].
    cbn [filter List.length]. unfold deleted_ok, delete_failed in *.
    destruct (eligible rd x), (delete_succeeds w x); cbn [andb negb List.length]; lia.
Qed.

(** X3.  An invocation that reaches the container loop ends its trace
    with the five summary lines, which report the number of containers
    listed and the tally of the run. *)
Theorem summary_reports_the_tally :
  forall (w : World) retention_days containers,
    preamble w = inr (retention_days, containers) ->
    exists before,
      events (run w)
      = (before ++ summary_lines (List.length containers)
                                 (tally w retention_days 0 containers))%list.
Proof.
  intros w rd cs Hp.
  destruct (run_trace_when_reached w rd cs Hp) as (sku & _ & Hev & _).
  cbv zeta in Hev. rewrite container_loop_tally in Hev.
  change (counters at_loop_entry) with zero in Hev.
  change (clock_reads at_loop_entry) with 0 in Hev.
  rewrite plus_zero_left in Hev.
  eexists. rewrite Hev, app_assoc. reflexivity.
Qed.

Lemma summary_reports_the_tally_witness :
  exists before,
    events (run Demo.world)
    = (before ++ summary_lines 3 {| deleted_count := 1;
                                    processed_count := 4;
                                    error_count := 2 |})%list.
Proof.
  exact (summary_reports_the_tally
           Demo.world 90 ["archive1"; "broken"; "archive2"]%string eq_refl).
Defined.

(** X4.  For an eligible blob the answer of [delete_blob] decides the
    counter: when it returns, [deleted_count] grows by one and the deletion
    is logged at INFO level; when it raises anything but
    [ResourceNotFoundError], the failure is logged at ERROR level with the
    exception and [error_count] grows by one.  Either way the body of the
    loop returns. *)
Theorem delete_answer_decides_the_counter :
  forall (w : World) retention_days container blob s,
    let t := now w (clock_reads s) in
    let age_days := days_between t (last_modified blob) in
    let r := process_blob w retention_days container blob s in
    let before := counters s in
    let after := counters (locals r) in
    should_delete retention_days blob age_days = true ->
    value r = inr tt
    /\ processed_count after = S (processed_count before)
    /\ match delete_blob w container (name blob) with
       | inr _ =>
           deleted_count after = S (deleted_count before)
           /\ error_count after = error_count before
           /\ last (events r) DatetimeNow
              = Log Py.INFO (Deleted container (name blob))
       | inl e =>
           deleted_count after = deleted_count before
           /\ error_count after = S (error_count before)
           /\ last (events r) DatetimeNow
              = match e with
                | Py.ResourceNotFoundError =>
                    Log Py.WARNING (BlobNotFound container (name blob))
                | _ => Log Py.ERROR (DeleteFailed container (name blob) e)
                end
       end.
Proof.
  intros w rd c b s t age r before after Hd.
  subst r before after. unfold process_blob; cbn.
  unfold bind, try_except, call; cbn. fold t. fold age. rewrite Hd. cbn.
  destruct (delete_blob w c (name b)) as [[]|[]]; cbn; repeat split.
Qed.

Lemma delete_answer_witness :
  let r := process_blob Demo.world 90 "archive1" Demo.x_txt at_loop_entry in
  value r = inr tt /\ deleted_count (counters (locals r)) = 1.
Proof.
  pose proof (delete_answer_decides_the_counter
                Demo.world 90 "archive1" Demo.x_txt at_loop_entry eq_refl) as H.
  cbv zeta in H. destruct H as (Hv & _ & H).
  cbv zeta. split; [exact Hv|]. vm_compute in H. vm_compute. apply H.
Defined.

(** X5.  When the account probe of line 37 raises, the failure is logged
    and the same exception ends the invocation: the containers are never
    listed, no blob is touched and the counters are never set. *)
Theorem account_probe_failure_is_fatal :
  forall (w : World) retention_days e,
    Py.int (Py.get_default (RETENTION_DAYS w) "90") = inr retention_days ->
    Py.truthy (STORAGE_ACCOUNT_NAME w) = true ->
    get_account_information w = inl e ->
    value (run w) = inl e
    /\ filter is_storage_call (events (run w)) = [GetAccountInformation]
    /\ In (Log Py.ERROR (AccessFailed e)) (events (run w))
    /\ locals (run w) = initial.
Proof.
  intros w rd e Hint Hacc Hinfo.
  unfold run, main, cleanup. rewrite Hint, Hacc, Hinfo.
  unfold bind, try_except, call, eval. cbn -[String.append].
  destruct (past_due w), e; cbn -[String.append]; repeat split; auto 12.
Qed.

Lemma account_probe_failure_witness :
  value (run (with_past_due true
                {| past_due := false;
                   STORAGE_ACCOUNT_NAME := Some "acct"%string;
                   RETENTION_DAYS := None;
                   get_account_information := inl Py.OtherException;
                   list_containers := inr [];
                   list_blobs := fun _ => inr [];
                   delete_blob := fun _ _ => inr tt;
                   now := fun _ => 0%Z |}))
  = inl Py.OtherException.
Proof.
  apply (account_probe_failure_is_fatal _ 90 Py.OtherException);
    reflexivity.
Defined.

(** X6.  A [RETENTION_DAYS] setting that [int] rejects ends the invocation
    with [ValueError], logged as a configuration error, before the account
    name is looked at and before any credential or client is made: the
    trace holds log lines only. *)
Theorem unparsable_retention_is_a_configuration_error :
  forall (w : World) e,
    Py.int (Py.get_default (RETENTION_DAYS w) "90") = inl e ->
    value (run w) = inl Py.ValueError
    /\ events (run w)
       = ((Log Py.INFO Triggered
           :: (if past_due w then [Log Py.INFO PastDue] else []))
          ++ [Log Py.ERROR (ConfigurationError Py.ValueError)])%list
    /\ locals (run w) = initial.
Proof.
  intros w e Hint. pose proof (int_raises_value_error _ _ Hint) as ->.
  unfold run, main, cleanup. rewrite Hint.
  unfold bind, try_except, call, eval. cbn.
  destruct (past_due w); cbn; repeat split.
Qed.

Lemma unparsable_retention_witness :
  value (run (with_retention (Some "ninety days"%string) Demo.world))
  = inl Py.ValueError.
Proof.
  apply (unparsable_retention_is_a_configuration_error
           (with_retention (Some "ninety days"%string) Demo.world)
           Py.ValueError).
  reflexivity.
Defined.

(** X7.  The test of line 79 is a threshold on the instant of last
    modification: an Archive blob is eligible exactly when
    [retention_days + 1] whole days have passed since, also for a negative
    [retention_days], which the job accepts.  So eligibility is kept when
    the clock advances and when the retention is shortened. *)
Theorem eligibility_is_a_threshold_on_last_modified :
  forall (retention_days : Z) (blob : Blob) (t : Z),
    (should_delete retention_days blob (days_between t (last_modified blob)) = true
     <-> blob_tier blob = Some "Archive"%string
         /\ (last_modified blob + (retention_days + 1) * microseconds_per_day
             <= t)%Z)
    /\ (forall shorter later,
           (shorter <= retention_days)%Z -> (t <= later)%Z ->
           should_delete retention_days blob
                         (days_between t (last_modified blob)) = true ->
           should_delete shorter blob
                         (days_between later (last_modified blob)) = true).
Proof.
  intros rd b t.
  assert (Hthr : forall r u,
             should_delete r b (days_between u (last_modified b)) = true
             <-> blob_tier b = Some "Archive"%string
                 /\ (last_modified b + (r + 1) * microseconds_per_day <= u)%Z).
  { intros r u. rewrite should_delete_spec.
    pose proof (days_between_floor u (last_modified b)) as Hfloor.
    unfold microseconds_per_day in *. split; intros [Htier H]; split; auto; nia. }
  split; [apply Hthr|].
  intros shorter later Hs Hl H. apply Hthr in H. apply Hthr.
  destruct H as [Htier H]. split; [exact Htier|].
  unfold microseconds_per_day in *. nia.
Qed.

Lemma ends_with_cons {A} (x : A) (l h : list A) :
  (exists before, l = before ++ h)%list ->
  (exists before, x :: l = before ++ h)%list.
Proof. intros [before ->]. exists (x :: before). reflexivity. Qed.

(** Shows that an explicit list ends with an explicit list. *)
Ltac ends_with :=
  first [ exists nil; reflexivity | apply ends_with_cons; ends_with ].

Lemma eligibility_threshold_witness :
  should_delete 30 Demo.x_txt (days_between (Demo.today + 5) (last_modified Demo.x_txt))
  = true.
Proof.
  apply (proj2 (eligibility_is_a_threshold_on_last_modified
                  90 Demo.x_txt Demo.today) 30%Z (Demo.today + 5)%Z);
    [lia | lia | reflexivity].
Defined.

(** X8.  Whatever ends the invocation is logged before it is raised: the
    trace ends with the lines of the handler, one configuration-error line
    for a [ValueError], wherever it came from, and two lines otherwise. *)
Theorem blob_failure_is_logged_before_it_is_raised :
  forall (w : World) e,
    value (run w) = inl e ->
    exists before, events (run w) = (before ++ handler_lines e)%list.
Proof.
  intros w e. preamble_cases w; cbn;
    unfold bind, try_except, call, eval; cbn -[for_each String.append].
  all: try (change {| counters := zero; clock_reads := 0; history := [zero] |}
              with at_loop_entry;
            match goal with
            | |- context [for_each ?cs ?body at_loop_entry] =>
                pose proof (container_loop_returns w rd cs at_loop_entry) as Hv;
                destruct (for_each cs body at_loop_entry) as [s1 ev1 v1];
                cbn in Hv; subst v1; cbn; discriminate
            end).
  all: try (match goal with
            | |- context [match ?x with Py.ValueError => _ | _ => _ end] =>
                destruct x; cbn -[String.append]
            end).
  all: intros H; injection H as <-; ends_with.
Qed.

Lemma blob_failure_is_logged_witness :
  exists before,
    events (run Demo.unconfigured)
    = (before ++ [Log Py.ERROR (ConfigurationError Py.ValueError)])%list.
Proof.
  exact (blob_failure_is_logged_before_it_is_raised
           Demo.unconfigured Py.ValueError eq_refl).
Defined.

(** X9.  The [past_due] flag of the timer changes nothing but one log
    line: a late invocation does what a timely one does, with the line
    about being past due after the first line. *)
Theorem past_due_only_adds_a_log_line :
  forall (w : World),
    let late := run (with_past_due true w) in
    let timely := run (with_past_due false w) in
    value late = value timely
    /\ locals late = locals timely
    /\ exists rest,
        events timely = Log Py.INFO Triggered :: rest
        /\ events late = Log Py.INFO Triggered :: Log Py.INFO PastDue :: rest.
Proof.
  intros w late timely. subst late timely. unfold run, main.
  change (cleanup (with_past_due true w)) with (cleanup (with_past_due false w)).
  unfold bind at 1 2 4 5. cbn [past_due with_past_due].
  unfold log, emit, ret. cbn -[cleanup try_except].
  destruct (try_except (cleanup (with_past_due false w)) _ initial)
    as [s1 ev1 v1].
  cbn. repeat split. exists ev1. split; reflexivity.
Qed.

End BlobMore.

(* ===================================================================== *)
(** ** The database job: outcomes, accounts and edge cases *)
(* ===================================================================== *)

Module DatabaseMore.
Import Script DatabaseCleanup DatabaseAccount DatabaseFacts DatabaseRun.

(** The block under [with conn:] when the version probe raises: the error
    is logged and raised again, the cursor is left without a commit, and
    leaving the connection rolls back, which may raise in its turn. *)
Lemma block_when_probe_fails w rd s st e :
  execute w version_query None (pending (db s)) = (st, inl e) ->
  let d := {| committed := committed (db s); pending := st |} in
  with_connection w (with_cursor w (with_cursor_block w rd)) s
  = Result {| db := match end_transaction w SQL_ROLLBACK d with
                    | None => open_database (committed (db s))
                    | Some (_, d') => d'
                    end;
              total_deleted := total_deleted s;
              table_name := table_name s |}
           [OpenCursor;
            Execute version_query None (inl e);
            Log Py.ERROR (TestFailed e);
            CursorExit true;
            ConnectionExit true]
           (inl match end_transaction w SQL_ROLLBACK d with
                | None => e
                | Some (e', _) => e'
                end).
Proof.
  intros Hprobe d. subst d. block_unfold.
  change "SELECT @@VERSION"%string with version_query.
  rewrite Hprobe. cbn.
  destruct (end_transaction w SQL_ROLLBACK _) as [[e' d']|]; reflexivity.
Qed.

Lemma raised_by_rollback w e :
  rollback_raises w e -> raised_ending_a_transaction w e.
Proof. intros (d & d' & H). exists SQL_ROLLBACK, d, d'. exact H. Qed.

Lemma reliable_never_raises w e :
  reliable w -> raised_ending_a_transaction w e -> False.
Proof. intros Hr (how & d & d' & H). rewrite Hr in H. discriminate. Qed.

(** The block under [with conn:] when the version probe answers: the
    table loop runs; when it returns, the total is logged; then the two
    [with] blocks are left, each ending the transaction, which may
    raise. *)
Lemma block_when_probe_answers w rd s st a :
  execute w version_query None (pending (db s)) = (st, inr a) ->
  let s1 := {| db := {| committed := committed (db s); pending := st |};
               total_deleted := total_deleted s;
               table_name := table_name s |} in
  let loop := for_each cleanup_queries (process_query w rd) s1 in
  let r := with_connection w (with_cursor w (with_cursor_block w rd)) s in
  exists closing,
    events r = ([OpenCursor;
                 Execute version_query None (inr a);
                 Log Py.INFO (ServerVersion (fetchone0 a))]
                  ++ events loop ++ closing)%list
    /\ filter is_execute closing = []
    /\ total_deleted (locals r) = total_deleted (locals loop)
    /\ (value loop = inr tt ->
        In (Log Py.INFO (Completed (total_deleted (locals loop)))) closing)
    /\ (value r = inr tt -> value loop = inr tt)
    /\ (forall e, value r = inl e -> raised_ending_a_transaction w e)
    /\ (reliable w -> value r = inr tt).
Proof.
  intros Hprobe s1 loop r. subst r loop s1. block_unfold.
  change "SELECT @@VERSION"%string with version_query.
  rewrite Hprobe. cbn -[for_each cleanup_queries].
  match goal with
  | |- context [for_each cleanup_queries ?body ?s0] =>
      pose proof (table_loop_raises w rd s0) as Hraises;
      destruct (for_each cleanup_queries body s0) as [s2 ev2 [e2|[]]]
  end; cbn [value] in Hraises; cbn -[for_each cleanup_queries]; endings w.
  all: rewrite <- ?app_assoc; cbn [app].
  all: eexists; split; [reflexivity|].
  all: split; [reflexivity|]; split; [reflexivity|].
  all: split; [first [discriminate | intros _; cbn; auto]|].
  all: split; [first [discriminate | reflexivity]|].
  all: split;
    [ intros x Hx; try discriminate Hx; injection Hx as <-;
      first [ apply raised_by_rollback, Hraises; reflexivity
            | match goal with
              | H : end_transaction _ ?how ?d = Some (_, ?d') |- _ =>
                  exists how, d, d'; exact H
              end ]
    | intros Hr; first [ reflexivity | exfalso ];
      first [ eapply (reliable_never_raises _ _ Hr), raised_by_rollback,
                Hraises; reflexivity
            | match goal with
              | H : end_transaction _ _ _ = Some _ |- _ =>
                  rewrite Hr in H; discriminate H
              end ] ].
Qed.

Lemma keeps_front {A} (f : A -> bool) (x : A) (l m : list A) :
  f x = false ->
  (exists before, l = before ++ m /\ filter f before = [])%list ->
  (exists before, x :: l = before ++ m /\ filter f before = [])%list.
Proof.
  intros Hx (before & -> & Hf). exists (x :: before). cbn. rewrite Hx. auto.
Qed.

(** Shows that an explicit list is a front without statements followed by
    an explicit rest. *)
Ltac front :=
  first [ exists nil; split; reflexivity
        | apply keeps_front; [reflexivity | front] ].

Ltac connect_cases w :=
  unfold connection;
  destruct (Py.truthy (SQL_SERVER w)) eqn:Hserver;
  destruct (Py.truthy (SQL_DATABASE w)) eqn:Hdatabase;
  destruct (get_token w token_scope) as [?e|?token] eqn:Htoken;
  cbn [negb orb Py.and_then];
  try destruct (connect w (conn_str _ _) None) as [[]|[]] eqn:Hfirst;
  try destruct (connect w (conn_str_token _ _) _) as [?e|[]] eqn:Hsecond.

Ltac keep_block :=
  cbn -[conn_str conn_str_token token_scope with_connection].

Ltac use_answers :=
  repeat match goal with
  | H : Py.truthy _ = _ |- _ => rewrite H; keep_block
  | H : get_token _ _ = _ |- _ => rewrite H; keep_block
  | H : connect _ _ _ = _ |- _ => rewrite H; keep_block
  end.

Ltac run_to_block :=
  unfold run, main, cleanup;
  unfold bind, try_except, open_connection, log, emit, call, raise, ret;
  use_answers; keep_block.

(** An invocation that gets its connection is its opening, then the block
    under [with conn:], then the handler's lines if the block raised. *)
Lemma run_through_connection w :
  connection w = inr tt ->
  let block := with_connection w
                 (with_cursor w (with_cursor_block w (retention_setting w)))
                 (initial w) in
  (exists before,
      events (run w)
      = before ++ events block
          ++ match value block with
             | inl e => handler_lines e
             | inr _ => []
             end
      /\ filter is_execute before = [])%list
  /\ locals (run w) = locals block
  /\ value (run w) = value block.
Proof.
  intros H block. subst block. unfold retention_setting. revert H.
  connect_cases w; try discriminate; intros _; run_to_block.
  all: destruct (with_connection _ _ (initial w)) as [s1 ev1 [[]|[]]];
    cbn -[conn_str conn_str_token token_scope];
    rewrite ?app_nil_r;
    (split; [front|split; reflexivity]).
Qed.

(** An invocation that gets no connection ends with the exception that
    prevented it, having sent no statement. *)
Lemma run_without_connection w e :
  connection w = inl e ->
  value (run w) = inl e
  /\ filter is_execute (events (run w)) = []
  /\ locals (run w) = initial w
  /\ exists before, (events (run w) = before ++ handler_lines e)%list.
Proof.
  intros H. revert H.
  connect_cases w; try discriminate; intros H; injection H as <-; run_to_block.
  all: try (match goal with
            | |- context [match ?x with Py.ValueError => _ | _ => _ end] =>
                destruct x; cbn -[conn_str conn_str_token token_scope]
            end).
  all: (split; [reflexivity|split; [reflexivity|split; [reflexivity|]]]);
    BlobMore.ends_with.
Qed.

Lemma preamble_returns w :
  preamble w = inr tt
  <-> connection w = inr tt /\ exists answer, snd (probe w) = inr answer.
Proof.
  unfold preamble.
  destruct (connection w) as [e|[]]; cbn [Py.and_then].
  - split; [discriminate|intros [H _]; discriminate].
  - destruct (snd (probe w)) as [e|a]; cbn [Py.and_then].
    + split; [discriminate|intros [_ [x H]]; discriminate].
    + split; [intros _; split; [reflexivity|eauto]|reflexivity].
Qed.

(** What an invocation answers is what lines 13-80 come to, unless
    ending a transaction raised once the connection was made. *)
Lemma database_run_value w :
  (value (run w) = preamble w
   \/ (connection w = inr tt
       /\ exists e, value (run w) = inl e /\ raised_ending_a_transaction w e))
  /\ (value (run w) = inr tt -> preamble w = inr tt)
  /\ (reliable w -> value (run w) = preamble w).
Proof.
  unfold preamble.
  destruct (connection w) as [e|[]] eqn:Hc; cbn [Py.and_then].
  - destruct (run_without_connection w e Hc) as (Hv & _). rewrite Hv.
    split; [now left|split; [discriminate|reflexivity]].
  - destruct (run_through_connection w Hc) as (_ & _ & Hv).
    cbv zeta in Hv. rewrite Hv. unfold probe.
    destruct (execute w version_query None (server_store w)) as [st [e|a]] eqn:Hp;
      cbn [snd Py.and_then].
    + rewrite (block_when_probe_fails w _ (initial w) st e Hp). cbn [value].
      destruct (end_transaction w SQL_ROLLBACK _) as [[e' d']|] eqn:Hend.
      * split; [right; split; [reflexivity|]|split; [discriminate|]].
        -- exists e'. split; [reflexivity|].
           eexists SQL_ROLLBACK, _, d'. exact Hend.
        -- intros Hr. rewrite Hr in Hend. discriminate.
      * split; [now left|split; [discriminate|reflexivity]].
    + destruct (block_when_probe_answers w (retention_setting w) (initial w)
                  st a Hp) as (closing & _ & _ & _ & _ & _ & Hraised & Hrel).
      cbv zeta in Hraised, Hrel.
      destruct (with_connection _ _ (initial w)) as [s1 ev1 [e|[]]];
        cbn [value] in *.
      * split; [right; split; [reflexivity|]|split; [discriminate|exact Hrel]].
        exists e. split; [reflexivity|]. now apply Hraised.
      * split; [now left|split; reflexivity].
Qed.

(** X10.  The invocation returns normally only when it gets a connection
    and the version probe answers.  What it raises is what prevented
    that, or, once the connection is made, what ending a transaction
    raised: in the handler's rollback of the table loop or on leaving a
    [with] block.  When ending a transaction never raises, nothing that
    happens in the table loop makes the invocation raise. *)
Theorem database_job_raises_before_the_tables_or_ending_a_transaction :
  forall (w : World),
    (value (run w) = preamble w
     \/ (connection w = inr tt
         /\ exists e,
             value (run w) = inl e /\ raised_ending_a_transaction w e))
    /\ (value (run w) = inr tt ->
        connection w = inr tt /\ exists answer, snd (probe w) = inr answer)
    /\ (reliable w ->
        value (run w) = preamble w
        /\ (value (run w) = inr tt <->
            connection w = inr tt /\ exists answer, snd (probe w) = inr answer)).
Proof.
  intros w. destruct (database_run_value w) as (Hcases & Hreturns & Hreliable).
  split; [exact Hcases|]. split.
  - intros Hv. apply preamble_returns, Hreturns, Hv.
  - intros Hr. split; [apply Hreliable, Hr|].
    rewrite (Hreliable Hr). apply preamble_returns.
Qed.

Lemma database_job_raises_witness :
  value (run healthy) = inr tt
  /\ value (run unreachable) = inl Py.PyodbcError.
Proof.
  split.
  - exact (eq_trans
             (proj1 (proj2 (proj2
                (database_job_raises_before_the_tables_or_ending_a_transaction
                   healthy)) (fun _ _ => eq_refl)))
             eq_refl).
  - exact (eq_trans
             (proj1 (proj2 (proj2
                (database_job_raises_before_the_tables_or_ending_a_transaction
                   unreachable)) (fun _ _ => eq_refl)))
             eq_refl).
Defined.

(** X11.  When the version probe of line 75 raises on a fresh connection,
    the failure is logged and ends the invocation: the probe is the only
    statement sent, the connection is left by its exception path, which
    rolls back, and no row count is added.  The invocation raises the
    probe's exception when that rollback completes, and the rollback's
    own when it does not. *)
Theorem version_probe_failure_is_fatal :
  forall (w : World) e,
    connection w = inr tt ->
    snd (probe w) = inl e ->
    let d := {| committed := server_store w; pending := fst (probe w) |} in
    value (run w) = inl match end_transaction w SQL_ROLLBACK d with
                        | None => e
                        | Some (e', _) => e'
                        end
    /\ filter is_execute (events (run w)) = [Execute version_query None (inl e)]
    /\ In (Log Py.ERROR (TestFailed e)) (events (run w))
    /\ In (ConnectionExit true) (events (run w))
    /\ db (locals (run w)) = match end_transaction w SQL_ROLLBACK d with
                             | None => open_database (server_store w)
                             | Some (_, d') => d'
                             end
    /\ total_deleted (locals (run w)) = 0%Z.
Proof.
  intros w e Hc Hp d. subst d.
  destruct (run_through_connection w Hc) as ((before & Hev & Hq) & Hl & Hv).
  cbv zeta in *. unfold probe in *.
  destruct (execute w version_query None (server_store w)) as [st ans] eqn:Hx.
  cbn [fst snd] in *. subst ans.
  rewrite (block_when_probe_fails w _ (initial w) st e Hx) in *.
  cbv zeta in *. cbn [events value locals db total_deleted initial] in *.
  cbn [committed open_database] in *.
  rewrite Hv, Hl, Hev. rewrite !filter_app, Hq.
  cbn [db total_deleted].
  split; [reflexivity|]. split.
  { destruct (end_transaction w SQL_ROLLBACK _) as [[[] d']|]; try destruct e;
      reflexivity. }
  split; [apply in_or_app; right; cbn; auto|].
  split; [apply in_or_app; right; cbn; auto 6|].
  split; reflexivity.
Qed.

Lemma version_probe_failure_witness :
  value (run unreachable) = inl Py.PyodbcError
  /\ filter is_execute (events (run unreachable))
     = [Execute version_query None (inl Py.PyodbcError)].
Proof.
  pose proof (version_probe_failure_is_fatal
                unreachable Py.PyodbcError eq_refl eq_refl) as (Hv & Hx & _).
  split; [exact Hv | exact Hx].
Defined.

(** The statements of the fixed list against the others an iteration
    sends. *)
Lemma delete_statements query :
  In query cleanup_queries ->
  exists table,
    extract_table_name query = inr table
    /\ is_delete_statement query = true
    /\ is_delete_statement (exists_query table) = false
    /\ is_delete_statement (count_query query) = false.
Proof.
  intros [<-|[<-|[]]]; eexists; repeat split; reflexivity.
Qed.

Lemma total_rows_app l1 l2 :
  total_rows (l1 ++ l2) = (total_rows l1 + total_rows l2)%Z.
Proof.
  unfold total_rows. induction l1 as [|x l1 IH]; cbn; [reflexivity|].
  rewrite IH. lia.
Qed.

Lemma total_rows_without_statements l :
  filter is_execute l = [] -> total_rows l = 0%Z.
Proof.
  unfold total_rows. induction l as [|x l IH]; cbn; [reflexivity|].
  destruct x; cbn; try (intros H; rewrite (IH H); reflexivity).
  discriminate.
Qed.

(** One iteration adds to the total the [rowcount] of its delete, when
    that answered. *)
Lemma process_query_total w rd query s :
  In query cleanup_queries ->
  total_deleted (locals (process_query w rd query s))
  = (total_deleted s + total_rows (events (process_query w rd query s)))%Z.
Proof.
  intros Hq. destruct (delete_statements query Hq) as (table & Ht & Hd & Hl & Hc).
  iteration w Ht; unfold total_rows;
    cbn -[exists_query count_query is_delete_statement];
    rewrite ?Hd, ?Hl, ?Hc; lia.
Qed.

Lemma table_loop_total w rd s :
  let loop := for_each cleanup_queries (process_query w rd) s in
  total_deleted (locals loop) = (total_deleted s + total_rows (events loop))%Z.
Proof.
  cbv zeta.
  apply (ScriptFacts.for_each_measure total_deleted total_rows).
  - reflexivity.
  - apply total_rows_app.
  - intros x s' Hx. apply process_query_total, Hx.
Qed.

Lemma handler_lines_without_statements e :
  filter is_execute (handler_lines e) = [].
Proof. destruct e; reflexivity. Qed.

(** X12.  The total the job keeps is the sum of the [rowcount]s of the
    deletes that answered, whether or not their commit completed, and not
    of the rows counted beforehand; it is the total of the completion
    line, which is logged whenever the table loop of the invocation
    returns. *)
Theorem total_is_the_sum_of_rowcounts :
  forall (w : World),
    total_deleted (locals (run w)) = total_rows (events (run w))
    /\ match preamble w, value (table_loop w) with
       | inr _, inr _ =>
           In (Log Py.INFO (Completed (total_rows (events (run w)))))
              (events (run w))
       | _, _ => True
       end.
Proof.
  intros w. unfold preamble.
  destruct (connection w) as [e|[]] eqn:Hc; cbn [Py.and_then].
  - destruct (run_without_connection w e Hc) as (_ & Hx & Hl & _).
    rewrite Hl, (total_rows_without_statements _ Hx). split; reflexivity || exact I.
  - destruct (run_through_connection w Hc) as ((before & Hev & Hq) & Hl & Hv).
    cbv zeta in *.
    set (tail := match value (with_connection w _ (initial w)) with
                 | inl e => handler_lines e
                 | inr _ => []
                 end) in *.
    assert (Htail : total_rows tail = 0%Z).
    { apply total_rows_without_statements. subst tail.
      destruct (value (with_connection _ _ _));
      [apply handler_lines_without_statements|reflexivity]. }
    clearbody tail.
    destruct (execute w version_query None (server_store w)) as [st [e|a]] eqn:Hp.
    + unfold probe. rewrite Hp. cbn [snd Py.and_then].
      rewrite (block_when_probe_fails w _ (initial w) st e Hp) in *.
      cbv zeta in *. cbn [events value locals total_deleted] in *.
      rewrite Hl, Hev, !total_rows_app, (total_rows_without_statements _ Hq), Htail.
      split; [reflexivity|exact I].
    + assert (Hentry : at_loop_entry w
                       = {| db := {| committed := committed (db (initial w));
                                     pending := st |};
                            total_deleted := total_deleted (initial w);
                            table_name := table_name (initial w) |})
        by (unfold at_loop_entry, probe; rewrite Hp; reflexivity).
      unfold probe. rewrite Hp. cbn [snd Py.and_then].
      destruct (block_when_probe_answers w (retention_setting w) (initial w)
                  st a Hp)
        as (closing & Hblock & Hclosing & Htotal & Hline & _).
      cbv zeta in Hblock, Htotal, Hline.
      rewrite <- Hentry in Hblock, Htotal, Hline. fold (table_loop w) in *.
      pose proof (table_loop_total w (retention_setting w) (at_loop_entry w))
        as Hloop.
      cbv zeta in Hloop. fold (table_loop w) in Hloop.
      cbn [at_loop_entry total_deleted] in Hloop.
      assert (Hsum : total_rows (events (run w))
                     = total_deleted (locals (table_loop w))).
      { assert (Hver : is_delete_statement version_query = false) by reflexivity.
        assert (H1 : total_rows [OpenCursor; Execute version_query None (inr a);
                                 Log Py.INFO (ServerVersion (fetchone0 a))] = 0%Z)
          by (unfold total_rows; cbn; rewrite Hver; reflexivity).
        rewrite Hev, Hblock, !total_rows_app,
          (total_rows_without_statements _ Hq),
          (total_rows_without_statements _ Hclosing), H1, Htail, Hloop.
        lia. }
      rewrite Hsum, Hl, Htotal. split; [reflexivity|].
      destruct (value (table_loop w)) as [e|[]]; [exact I|].
      rewrite Hev, Hblock. apply in_or_app. right. apply in_or_app. left.
      apply in_or_app. right. apply in_or_app. right. apply Hline. reflexivity.
Qed.

(** Decides which event of an explicit trace a given statement is. *)
Ltac find_in Hin :=
  cbn -[exists_query count_query] in Hin;
  repeat match type of Hin with
  | _ \/ _ => destruct Hin as [Hin|Hin]
  | False => contradiction
  | _ = _ =>
      first [discriminate Hin | injection Hin; intros; subst; try congruence]
  end.

Ltac answer H :=
  rewrite H; cbn -[exists_query count_query Py.int].

(** X13.  When the table exists, the count and the delete answer and the
    commit completes, the iteration is lookup, count, delete, commit: the
    store the delete left becomes the committed one and the total grows by
    the delete's [rowcount], whatever the count query had found. *)
Theorem answered_delete_is_committed_and_counted :
  forall (w : World) retention_days query table s
         st1 found days st2 counted st3 deleted,
    extract_table_name query = inr table ->
    execute w (exists_query table) None (pending (db s)) = (st1, inr found) ->
    is_zero (fetchone0 found) = false ->
    Py.int retention_days = inr days ->
    execute w (count_query query) (Some (- days)%Z) st1 = (st2, inr counted) ->
    execute w query (Some (- days)%Z) st2 = (st3, inr deleted) ->
    end_transaction w SQL_COMMIT {| committed := committed (db s);
                                    pending := st3 |} = None ->
    let r := process_query w retention_days query s in
    events r
    = [Execute (exists_query table) None (inr found);
       Execute (count_query query) (Some (- days)%Z) (inr counted);
       Log Py.INFO (FoundRecords (fetchone0 counted) table);
       Execute query (Some (- days)%Z) (inr deleted);
       Log Py.INFO (DeletedRows (rowcount deleted) table);
       Commit]
    /\ db (locals r) = open_database st3
    /\ total_deleted (locals r) = (total_deleted s + rowcount deleted)%Z
    /\ value r = inr tt.
Proof.
  intros w rd query table s st1 found days st2 counted st3 deleted
         Ht Hlookup Hfound Hint Hcount Hdelete Hcommit r.
  subst r. unfold process_query. rewrite Ht. script_unfold.
  answer Hlookup. answer Hfound. answer Hint. answer Hcount. answer Hdelete.
  answer Hcommit.
  repeat split.
Qed.

Lemma answered_delete_witness :
  let r := process_query healthy "30" logs_query (at_loop_entry healthy) in
  db (locals r) = open_database [("Logs"%string, [30%Z])]
  /\ total_deleted (locals r) = 3%Z.
Proof.
  pose proof (answered_delete_is_committed_and_counted
                healthy "30" logs_query "Logs" (at_loop_entry healthy)
                Demo.rows {| fetchone0 := VInt 1; rowcount := (-1)%Z |}
                30%Z
                Demo.rows {| fetchone0 := VInt 2; rowcount := (-1)%Z |}
                [("Logs"%string, [30%Z])]
                {| fetchone0 := VInt 0; rowcount := 3%Z |}
                eq_refl eq_refl eq_refl eq_refl eq_refl eq_refl eq_refl) as H.
  cbv zeta in H. destruct H as (_ & Hdb & Htotal & _).
  cbv zeta. split; [exact Hdb | exact Htotal].
Defined.



(** X15.  An iteration sends at most three statements, in a fixed order:
    the catalog lookup without parameter, then the count, then the delete,
    the last two with the negated retention as their parameter.  With a
    retention setting that [int] rejects only the lookup is sent. *)
Theorem statements_of_an_iteration :
  forall (w : World) retention_days query s,
    In query cleanup_queries ->
    let r := process_query w retention_days query s in
    exists table n,
      extract_table_name query = inr table
      /\ 1 <= n <= 3
      /\ match Py.int retention_days with
         | inr days =>
             map sent (filter is_execute (events r))
             = firstn n [Some (exists_query table, None);
                         Some (count_query query, Some (- days)%Z);
                         Some (query, Some (- days)%Z)]
         | inl _ =>
             map sent (filter is_execute (events r))
             = [Some (exists_query table, None)]
         end.
Proof.
  intros w rd query s Hq r. subst r.
  destruct (query_texts query Hq) as (table & Ht & _).
  exists table.
  unfold process_query. rewrite Ht. script_unfold.
  destruct (Py.int rd) as [e|days] eqn:Hint;
    query_cases w;
    first [ exists 1; repeat split; auto; lia
          | exists 2; repeat split; auto; lia
          | exists 3; repeat split; auto; lia ].
Qed.

Lemma statements_of_an_iteration_witness :
  exists table n,
    extract_table_name logs_query = inr table
    /\ 1 <= n <= 3
    /\ map sent (filter is_execute
                   (events (process_query healthy "30" logs_query
                                          (at_loop_entry healthy))))
       = firstn n [Some (exists_query table, None);
                   Some (count_query logs_query, Some (-30)%Z);
                   Some (logs_query, Some (-30)%Z)].
Proof.
  exact (statements_of_an_iteration healthy "30" logs_query
           (at_loop_entry healthy) (or_introl eq_refl)).
Defined.

(** X16.  Every iteration ends with a commit, a rollback or the warning
    about a missing table.  The commit is called exactly when the delete
    answered, and an iteration that ends with it returns.  An iteration
    that returns after a commit or a rollback leaves the connection
    without pending change, and when it called the rollback and no commit
    the connection is back at the commit before the iteration.  An
    iteration raises only what its final rollback raises. *)
Theorem iteration_ends_the_transaction :
  forall (w : World) retention_days query s,
    In query cleanup_queries ->
    let r := process_query w retention_days query s in
    exists table init final,
      extract_table_name query = inr table
      /\ events r = (init ++ [final])%list
      /\ ends_iteration table final
      /\ (In Commit (events r)
          <-> exists param answer, In (Execute query param (inr answer)) (events r))
      /\ (final = Commit -> value r = inr tt)
      /\ (value r = inr tt ->
          final = Commit \/ final = Rollback ->
          pending (db (locals r)) = committed (db (locals r)))
      /\ (value r = inr tt ->
          final = Rollback ->
          ~ In Commit (events r) ->
          db (locals r) = open_database (committed (db s)))
      /\ (forall e, value r = inl e -> final = Rollback /\ rollback_raises w e).
Proof.
  intros w rd query s Hq r. subst r.
  destruct (query_texts query Hq) as (table & Ht & Hne1 & Hne2 & _).
  unfold process_query. rewrite Ht. script_unfold. query_cases w.
  all: exists table.
  all: match goal with
       | |- exists init final, _ /\ ?l = _ /\ _ =>
           exists (removelast l); exists (last l Commit)
       end; cbn -[exists_query count_query].
  all: split; [reflexivity|]; split; [reflexivity|].
  all: unfold ends_iteration; split; [auto|].
  all: split;
    [ split; intros H;
      [ first [ eexists; eexists; cbn -[exists_query count_query]; auto 8; fail
              | find_in H ]
      | first [ cbn; auto 8; fail
              | destruct H as (param & answer & Hin); find_in Hin ] ]
    | ].
  all: split; [intros H; first [reflexivity | discriminate H]|].
  all: split;
    [ intros Hv H; first [ reflexivity | discriminate Hv
                         | destruct H as [H|H]; discriminate H ] | ].
  all: split;
    [ intros Hv H Hno;
      first [ reflexivity | discriminate Hv | discriminate H
            | exfalso; apply Hno; cbn; auto 8 ] | ].
  all: intros x Hv; try discriminate Hv; injection Hv as <-;
    (split; [reflexivity|]);
    match goal with
    | H : end_transaction _ SQL_ROLLBACK ?d = Some (_, ?d') |- _ =>
        exists d, d'; exact H
    end.
Qed.

Lemma iteration_ends_the_transaction_witness :
  exists table init final,
    extract_table_name logs_query = inr table
    /\ events (process_query Demo.world "90" logs_query (initial Demo.world))
       = (init ++ [final])%list
    /\ ends_iteration table final.
Proof.
  destruct (iteration_ends_the_transaction
              Demo.world "90" logs_query (initial Demo.world)
              (or_introl eq_refl))
    as (table & init & final & Ht & Hev & Hend & _).
  exists table, init, final. repeat split; assumption.
Defined.





(** X18.  Whatever ends the invocation is logged before it is raised: the
    trace ends with the lines of the handler, one configuration-error line
    for a [ValueError], wherever it came from, and three lines
    otherwise. *)
Theorem database_failure_is_logged_before_it_is_raised :
  forall (w : World) e,
    value (run w) = inl e ->
    exists before, events (run w) = (before ++ handler_lines e)%list.
Proof.
  intros w e Hv.
  destruct (connection w) as [e0|[]] eqn:Hc.
  - destruct (run_without_connection w e0 Hc) as (Hv0 & _ & _ & Hev).
    assert (e0 = e) by congruence. subst e0. exact Hev.
  - destruct (run_through_connection w Hc) as ((before & Hev & _) & _ & Hb).
    cbv zeta in *. rewrite <- Hb, Hv in Hev.
    exists (before ++ events (with_connection w
                                (with_cursor w
                                   (with_cursor_block w (retention_setting w)))
                                (initial w)))%list.
    rewrite Hev, app_assoc. reflexivity.
Qed.

Lemma database_failure_is_logged_witness :
  exists before,
    events (run Demo.locked_out)
    = (before ++ [Log Py.ERROR (FunctionError Py.PyodbcError);
                  Log Py.ERROR (ErrorType Py.PyodbcError);
                  Log Py.ERROR (ErrorArgs Py.PyodbcError)])%list.
Proof.
  exact (database_failure_is_logged_before_it_is_raised
           Demo.locked_out Py.PyodbcError eq_refl).
Defined.

End DatabaseMore.
(* ===================================================================== *)
(** ** Splitting a text and reading a table name off a statement *)
(* ===================================================================== *)

Module TextFacts.
Import Text.

Lemma text_app_nil_r (s : string) : (s ++ "")%string = s.
Proof. induction s as [|c s IH]; cbn; [reflexivity|now rewrite IH]. Qed.

Lemma text_app_assoc (a b c : string) : ((a ++ b) ++ c = a ++ (b ++ c))%string.
Proof. induction a as [|x a IH]; cbn; [reflexivity|now rewrite IH]. Qed.

Lemma text_length_app (a b : string) :
  String.length (a ++ b) = String.length a + String.length b.
Proof. induction a as [|x a IH]; cbn; [reflexivity|now rewrite IH]. Qed.

Lemma rev_onto_app (s acc : string) :
  Py.rev_onto s acc = (Py.rev_onto s "" ++ acc)%string.
Proof.
  revert acc. induction s as [|c s IH]; intros acc; cbn; [reflexivity|].
  rewrite (IH (String c acc)), (IH (String c "")), text_app_assoc.
  reflexivity.
Qed.

Lemma rev_cons_app (c : ascii) (cur x : string) :
  (Py.rev (String c cur) ++ x = Py.rev cur ++ String c x)%string.
Proof.
  unfold Py.rev. cbn. rewrite rev_onto_app, text_app_assoc. reflexivity.
Qed.

Lemma prefix_app (sep rest : string) : prefix sep (sep ++ rest) = true.
Proof.
  induction sep as [|c sep IH]; cbn; [destruct rest; reflexivity|].
  destruct (ascii_dec c c); [exact IH|contradiction].
Qed.

Lemma prefix_decompose (sep : string) : forall s,
  prefix sep s = true -> exists rest, s = (sep ++ rest)%string.
Proof.
  induction sep as [|c sep IH]; intros s H.
  - exists s. reflexivity.
  - destruct s as [|d s]; cbn in H; [discriminate|].
    destruct (ascii_dec c d) as [->|]; [|discriminate].
    destruct (IH s H) as [rest ->]. exists rest. reflexivity.
Qed.

Lemma drop_length_app (x y : string) : drop (String.length x) (x ++ y) = y.
Proof. induction x as [|c x IH]; cbn; [reflexivity|exact IH]. Qed.

(** Passing over the rest of a matched separator is dropping it. *)
Lemma split_go_skip (sep : string) (s : string) : forall k cur,
  k <= String.length s ->
  Py.split_go sep k cur s = Py.split_go sep 0 cur (drop k s).
Proof.
  induction s as [|c s IH]; intros k cur Hk.
  - cbn in Hk. assert (k = 0) by lia. subst k. reflexivity.
  - destruct k as [|k]; [reflexivity|].
    cbn [Py.split_go drop]. apply IH. cbn in Hk. lia.
Qed.

(** After a separator the scan starts afresh on what follows it. *)
Lemma split_go_separator (c : ascii) (sep' cur rest : string) :
  Py.split_go (String c sep') 0 cur (String c sep' ++ rest)
  = Py.rev cur :: Py.split_go (String c sep') 0 "" rest.
Proof.
  cbn [String.append Py.split_go].
  change (String c (sep' ++ rest)) with (String c sep' ++ rest)%string.
  rewrite prefix_app. cbn [String.length Nat.sub].
  rewrite Nat.sub_0_r, split_go_skip by (rewrite text_length_app; lia).
  now rewrite drop_length_app.
Qed.

Lemma split_go_nonempty (sep : string) (s : string) : forall k cur,
  Py.split_go sep k cur s <> [].
Proof.
  induction s as [|c s IH]; intros k cur; cbn [Py.split_go]; [discriminate|].
  destruct k; [|apply IH].
  destruct (prefix sep (String c s)); [discriminate|apply IH].
Qed.

Lemma join_cons (sep p : string) (ps : list string) :
  ps <> [] -> join sep (p :: ps) = (p ++ sep ++ join sep ps)%string.
Proof. destruct ps; [contradiction|reflexivity]. Qed.

Lemma join_split_go (c : ascii) (sep' : string) (n : nat) : forall s cur,
  String.length s <= n ->
  join (String c sep') (Py.split_go (String c sep') 0 cur s)
  = (Py.rev cur ++ s)%string.
Proof.
  induction n as [|n IH]; intros s cur Hn.
  - destruct s; [|cbn in Hn; lia]. cbn. now rewrite text_app_nil_r.
  - destruct s as [|d s]; [cbn; now rewrite text_app_nil_r|].
    destruct (prefix (String c sep') (String d s)) eqn:Hp.
    + destruct (prefix_decompose _ _ Hp) as [rest Hs]. rewrite Hs.
      rewrite split_go_separator, join_cons by apply split_go_nonempty.
      rewrite IH.
      * reflexivity.
      * assert (String.length (String d s) = String.length (String c sep' ++ rest))
          by now rewrite Hs.
        rewrite text_length_app in H. cbn in H, Hn. lia.
    + cbn [Py.split_go]. rewrite Hp, IH by (cbn in Hn; lia).
      apply rev_cons_app.
Qed.

(** X19.  Splitting a text on a non-empty separator loses nothing:
    joining the pieces with the separator gives the text back, and there is
    always at least one piece.  An empty separator is refused with
    [ValueError]. *)
Theorem join_of_split_is_the_text :
  forall (sep s : string),
    match Py.split sep s with
    | inr pieces => join sep pieces = s /\ pieces <> [] /\ sep <> EmptyString
    | inl e => e = Py.ValueError /\ sep = EmptyString
    end.
Proof.
  intros sep s. destruct sep as [|c sep']; cbn [Py.split]; [auto|].
  split; [|split; [apply split_go_nonempty|discriminate]].
  rewrite (join_split_go c sep' (String.length s)) by lia. reflexivity.
Qed.

Lemma absent_before_check_sound (sep s : string) (n : nat) :
  absent_before_check sep s n = true -> absent_before sep s n.
Proof.
  unfold absent_before_check, absent_before. rewrite forallb_forall.
  intros H i Hi. specialize (H i). rewrite in_seq in H.
  apply negb_true_iff, H. lia.
Qed.

Lemma absent_before_step (sep : string) (c : ascii) (s : string) (n : nat) :
  absent_before sep (String c s) (S n) ->
  prefix sep (String c s) = false /\ absent_before sep s n.
Proof.
  intros H. split.
  - apply (H 0). lia.
  - intros i Hi. apply (H (S i)). lia.
Qed.

(** A text without the separator is one piece. *)
Lemma split_go_absent (sep : string) (s : string) : forall cur,
  absent_before sep s (String.length s) ->
  Py.split_go sep 0 cur s = [(Py.rev cur ++ s)%string].
Proof.
  induction s as [|c s IH]; intros cur H.
  - cbn. now rewrite text_app_nil_r.
  - cbn [String.length] in H.
    destruct (absent_before_step _ _ _ _ H) as [Hp Hrest].
    cbn [Py.split_go]. rewrite Hp, (IH _ Hrest). now rewrite rev_cons_app.
Qed.

(** The first piece ends at the first separator. *)
Lemma split_go_first (c : ascii) (sep' : string) (a : string) : forall cur rest,
  absent_before (String c sep') (a ++ String c sep' ++ rest) (String.length a) ->
  Py.split_go (String c sep') 0 cur (a ++ String c sep' ++ rest)
  = (Py.rev cur ++ a)%string :: Py.split_go (String c sep') 0 "" rest.
Proof.
  induction a as [|d a IH]; intros cur rest H.
  - cbn [String.append]. change (String c (sep' ++ rest))
      with (String c sep' ++ rest)%string.
    rewrite split_go_separator. now rewrite text_app_nil_r.
  - cbn [String.length] in H.
    change ((String d a ++ String c sep' ++ rest)%string)
      with (String d (a ++ String c sep' ++ rest)) in *.
    destruct (absent_before_step _ _ _ _ H) as [Hp Hrest].
    cbn [Py.split_go]. rewrite Hp, (IH _ _ Hrest). now rewrite rev_cons_app.
Qed.

(** The first piece extends over every position no separator starts at. *)
Lemma split_go_head (sep : string) (x : string) : forall cur y,
  absent_before sep (x ++ y) (String.length x) ->
  exists q ps,
    Py.split_go sep 0 cur (x ++ y) = (Py.rev cur ++ x ++ q)%string :: ps.
Proof.
  induction x as [|d x IH]; intros cur y H.
  - cbn [String.append]. clear H. revert cur.
    induction y as [|e y IHy]; intros cur.
    + exists EmptyString, []. cbn. now rewrite text_app_nil_r.
    + cbn [Py.split_go]. destruct (prefix sep (String e y)).
      * exists EmptyString. eexists. now rewrite text_app_nil_r.
      * destruct (IHy (String e cur)) as (q & ps & Hq).
        exists (String e q), ps. rewrite Hq. now rewrite rev_cons_app.
  - cbn [String.length] in H.
    change ((String d x ++ y)%string) with (String d (x ++ y)) in *.
    destruct (absent_before_step _ _ _ _ H) as [Hp Hrest].
    cbn [Py.split_go]. rewrite Hp.
    destruct (IH (String d cur) y Hrest) as (q & ps & Hq).
    exists q, ps. rewrite Hq. now rewrite rev_cons_app.
Qed.

Lemma prefix_local (sep : string) : forall x y,
  String.length sep <= String.length x ->
  prefix sep (x ++ y) = prefix sep x.
Proof.
  induction sep as [|c sep IH]; intros x y H.
  - destruct x, y; reflexivity.
  - destruct x as [|d x]; [cbn in H; lia|].
    cbn. destruct (ascii_dec c d); [|reflexivity].
    apply IH. cbn in H. lia.
Qed.

(** Whether a separator starts at a position depends on the text up to
    the end of that occurrence only. *)
Lemma starts_at_local (sep : string) (x : string) : forall y i,
  i + String.length sep <= String.length x ->
  starts_at sep (x ++ y) i = starts_at sep x i.
Proof.
  unfold starts_at. induction x as [|d x IH]; intros y i H.
  - cbn in H. assert (i = 0) by lia. subst i.
    cbn [drop]. apply prefix_local. cbn. lia.
  - destruct i as [|i].
    + cbn [drop]. apply prefix_local. lia.
    + cbn [drop String.append]. apply IH. cbn in H. lia.
Qed.

(** X20.  A statement in which [FROM] does not occur has no second piece:
    reading the table name off it raises [IndexError]. *)
Theorem statement_without_from_has_no_table_name :
  forall (query : string),
    absent_before "FROM" query (String.length query) ->
    DatabaseCleanup.extract_table_name query = inl Py.IndexError.
Proof.
  intros query H. unfold DatabaseCleanup.extract_table_name, Py.split.
  rewrite (split_go_absent _ _ _ H). reflexivity.
Qed.

Lemma statement_without_from_witness :
  DatabaseCleanup.extract_table_name "TRUNCATE TABLE Logs" = inl Py.IndexError.
Proof.
  apply statement_without_from_has_no_table_name.
  apply absent_before_check_sound. reflexivity.
Defined.

(** X21.  For any statement of the form
    [before FROM between WHERE after], where that [FROM] is the first of
    the statement, no [FROM] starts inside [between WHERE] and no other
    [WHERE] starts inside [between], the table name read off the statement
    is [between] stripped of surrounding whitespace. *)
Theorem table_name_of_any_statement :
  forall (before between after : string),
    let tail := (between ++ "WHERE" ++ after)%string in
    let query := (before ++ "FROM" ++ tail)%string in
    absent_before "FROM" query (String.length before) ->
    absent_before "FROM" tail (String.length (between ++ "WHERE")) ->
    absent_before "WHERE" (between ++ "WHERE") (String.length between) ->
    DatabaseCleanup.extract_table_name query = inr (Py.strip between).
Proof.
  intros before between after tail query Hfrom Htail Hwhere.
  unfold DatabaseCleanup.extract_table_name, Py.split. subst query.
  rewrite (split_go_first "F" "ROM" before "" tail Hfrom).
  cbn [Py.rev Py.rev_onto String.append].
  assert (Htail' : absent_before "FROM" ((between ++ "WHERE") ++ after)
                                 (String.length (between ++ "WHERE"))).
  { subst tail. now rewrite text_app_assoc. }
  destruct (split_go_head "FROM" (between ++ "WHERE") "" after Htail')
    as (q & ps & Hhead).
  subst tail. rewrite <- text_app_assoc, Hhead.
  cbn [Py.and_then Py.index nth_error Py.rev Py.rev_onto String.append].
  rewrite text_app_assoc.
  assert (Hw : absent_before "WHERE" (between ++ "WHERE" ++ q)
                             (String.length between)).
  { intros i Hi. rewrite <- text_app_assoc.
    rewrite starts_at_local by (rewrite text_length_app; cbn; lia).
    apply Hwhere, Hi. }
  rewrite (split_go_first "W" "HERE" between "" q Hw).
  reflexivity.
Qed.

Lemma table_name_of_any_statement_witness :
  DatabaseCleanup.extract_table_name
    "delete FROM  dbo.Sessions  WHERE Expires < GETDATE() -- FROM cron"
  = inr "dbo.Sessions"%string.
Proof.
  apply (table_name_of_any_statement
           "delete " "  dbo.Sessions  " " Expires < GETDATE() -- FROM cron");
    apply absent_before_check_sound; reflexivity.
Defined.

End TextFacts.
